(** * Basic Network Sniffer: capture pipeline

    A shallow embedding of [network_sniffer.py] (class [NetworkSniffer]) and
    [demo_sniffer.py] (class [DemoNetworkSniffer]): the packet callback with
    its bounded history, the frame classifier [analyze_packet], the
    start/stop/clear state machine, the statistics aggregator, the
    recent-packets accessor and the JSON export.

    Python values are modelled as follows.
    - [int] is [Z] (unbounded), [str] is [string], [bytes] is [list byte].
    - A [dict] is an insertion-ordered association list with unique keys
      ([dict_get], [dict_set]): Python dictionaries keep insertion order, and
      [get_packet_stats] relies on it.
    - The object fields of a sniffer are the fields of the record [Sniffer];
      a method is a function from the state before to the state after (and
      the returned value).
    - Wall-clock time, random draws, the file system and the behaviour of
      scapy's [sniff] are inputs of the functions that use them. *)

From Stdlib Require Import ZArith Lia.
From Stdlib.Strings Require Import Byte Ascii String.
From stdpp Require Import base list strings gmap sorting pretty.

(** ** Python values stored in a packet dictionary *)

Inductive PyVal :=
  | VNone
  | VStr (s : string)
  | VInt (n : Z)
  (** [scapy.fields.FlagValue], the object scapy returns for [packet[TCP].flags];
      it is a plain Python object (not a subclass of [int] or [str]). *)
  | VFlagValue (value : Z).

#[global] Instance PyVal_eq_dec : EqDecision PyVal.
Proof. solve_decision. Defined.

(** Truth value of [if v:]. *)
Definition truthy (v : PyVal) : bool :=
  match v with
  | VNone => false
  | VStr s => bool_decide (s ≠ "")
  | VInt n => bool_decide (n ≠ 0%Z)
  | VFlagValue n => bool_decide (n ≠ 0%Z)
  end.

(** ** Insertion-ordered dictionaries *)

Section Dict.
Context {K V : Type} `{EqDecision K}.

(** [d.get(k)] *)
Fixpoint dict_get (d : list (K * V)) (k : K) : option V :=
  match d with
  | [] => None
  | (k', v) :: d' => if decide (k' = k) then Some v else dict_get d' k
  end.

(** [d.get(k, dflt)] *)
Definition dict_get_default (d : list (K * V)) (k : K) (dflt : V) : V :=
  default dflt (dict_get d k).

(** [d[k] = v]: an existing key keeps its position, a new key goes last. *)
Fixpoint dict_set (d : list (K * V)) (k : K) (v : V) : list (K * V) :=
  match d with
  | [] => [(k, v)]
  | (k', v') :: d' =>
      if decide (k' = k) then (k', v) :: d' else (k', v') :: dict_set d' k v
  end.

(** [dict(items)] *)
Definition dict_of_items (items : list (K * V)) : list (K * V) :=
  foldl (λ d kv, dict_set d kv.1 kv.2) [] items.
End Dict.

(** A packet dictionary, as built by [analyze_packet] and
    [generate_demo_packet]. *)
Abbreviation PacketInfo := (list (string * PyVal)).

(** ** Scapy packets *)

(** A scapy packet is a stack of layers. [X in packet] and [packet[X]] look
    for the first layer of class [X]. *)
Inductive Layer :=
  | Ether (src dst : string)
  | IP (src dst : string) (proto : Z)
  | TCP (sport dport : Z) (flags : Z)
  | UDP (sport dport : Z)
  | ICMP (icmp_type icmp_code : Z)
  | ARP (psrc pdst hwsrc hwdst : string)
  | Raw (load : list byte)
  | OtherLayer (name : string).

Record Packet := mkPacket {
  pkt_layers : list Layer;
  pkt_len : Z;            (* len(packet) *)
  pkt_summary : string    (* packet.summary() *)
}.

Fixpoint get_IP (ls : list Layer) : option (string * string * Z) :=
  match ls with
  | [] => None
  | IP s d p :: _ => Some (s, d, p)
  | _ :: r => get_IP r
  end.

Fixpoint get_TCP (ls : list Layer) : option (Z * Z * Z) :=
  match ls with
  | [] => None
  | TCP s d f :: _ => Some (s, d, f)
  | _ :: r => get_TCP r
  end.

Fixpoint get_UDP (ls : list Layer) : option (Z * Z) :=
  match ls with
  | [] => None
  | UDP s d :: _ => Some (s, d)
  | _ :: r => get_UDP r
  end.

Fixpoint get_ICMP (ls : list Layer) : option (Z * Z) :=
  match ls with
  | [] => None
  | ICMP t c :: _ => Some (t, c)
  | _ :: r => get_ICMP r
  end.

Fixpoint get_ARP (ls : list Layer) : option (string * string * string * string) :=
  match ls with
  | [] => None
  | ARP ps pd hs hd :: _ => Some (ps, pd, hs, hd)
  | _ :: r => get_ARP r
  end.

Fixpoint get_Ether (ls : list Layer) : option (string * string) :=
  match ls with
  | [] => None
  | Ether s d :: _ => Some (s, d)
  | _ :: r => get_Ether r
  end.

Fixpoint get_Raw (ls : list Layer) : option (list byte) :=
  match ls with
  | [] => None
  | Raw l :: _ => Some l
  | _ :: r => get_Raw r
  end.

(** [binascii.hexlify(bs).decode()] *)
Definition hex_digit (n : N) : ascii :=
  match n with
  | 0 => "0" | 1 => "1" | 2 => "2" | 3 => "3" | 4 => "4" | 5 => "5"
  | 6 => "6" | 7 => "7" | 8 => "8" | 9 => "9" | 10 => "a" | 11 => "b"
  | 12 => "c" | 13 => "d" | 14 => "e" | _ => "f"
  end%N%char.

Definition hexlify (bs : list byte) : string :=
  foldr (λ b acc,
           let n := Byte.to_N b in
           String (hex_digit (n / 16)) (String (hex_digit (n mod 16)) acc))
        EmptyString bs.

(** ** The sniffer object *)

(** The producer thread created by [start_capture]; its closure holds the
    interface and the filter it was started with. *)
Record Thread := mkThread {
  thr_iface : option string;
  thr_filter : string
}.

(** The attributes set by [__init__]. [filter_] is the attribute [filter]. *)
Record Sniffer := mkSniffer {
  packets : list PacketInfo;
  packet_queue : list PacketInfo;      (* queue.Queue(): oldest first *)
  is_capturing : bool;
  capture_thread : option Thread;
  packet_count : Z;
  interface : option string;           (* None or a str *)
  filter_ : string
}.

Definition set_packets (v : list PacketInfo) (self : Sniffer) : Sniffer :=
  mkSniffer v (packet_queue self) (is_capturing self) (capture_thread self)
            (packet_count self) (interface self) (filter_ self).
Definition set_packet_queue (v : list PacketInfo) (self : Sniffer) : Sniffer :=
  mkSniffer (packets self) v (is_capturing self) (capture_thread self)
            (packet_count self) (interface self) (filter_ self).
Definition set_is_capturing (v : bool) (self : Sniffer) : Sniffer :=
  mkSniffer (packets self) (packet_queue self) v (capture_thread self)
            (packet_count self) (interface self) (filter_ self).
Definition set_capture_thread (v : option Thread) (self : Sniffer) : Sniffer :=
  mkSniffer (packets self) (packet_queue self) (is_capturing self) v
            (packet_count self) (interface self) (filter_ self).
Definition set_packet_count (v : Z) (self : Sniffer) : Sniffer :=
  mkSniffer (packets self) (packet_queue self) (is_capturing self)
            (capture_thread self) v (interface self) (filter_ self).
Definition set_interface (v : option string) (self : Sniffer) : Sniffer :=
  mkSniffer (packets self) (packet_queue self) (is_capturing self)
            (capture_thread self) (packet_count self) v (filter_ self).
Definition set_filter (v : string) (self : Sniffer) : Sniffer :=
  mkSniffer (packets self) (packet_queue self) (is_capturing self)
            (capture_thread self) (packet_count self) (interface self) v.

(** [len(l)] *)
Definition len {A} (l : list A) : Z := Z.of_nat (length l).

(** [l[start:]] for any integer [start]. *)
Definition slice_from {A} (l : list A) (start : Z) : list A :=
  let start' :=
    if (start <? 0)%Z then Z.max (len l + start) 0 else Z.min start (len l) in
  drop (Z.to_nat start') l.

(** [l[:stop]] for a non-negative [stop]. *)
Definition slice_to {A} (l : list A) (stop : nat) : list A := take stop l.

(** [l.pop(0)] on a non-empty list (the returned element is discarded). *)
Definition pop0 {A} (l : list A) : list A := drop 1 l.

(** ** The outside world: exceptions, console and files *)

(** A raised Python exception: its class name and [str(e)]. *)
Record Exception := mkException {
  exc_class : string;
  exc_msg : string
}.

(** JSON values, as [json.load] would read them back. The documents written
    by [export_packets] are arrays of objects whose members are scalars. *)
Inductive Json :=
  | JNull
  | JString (s : string)
  | JNumber (n : Z).

Abbreviation JsonObject := (list (string * Json)).

(** What a file holds: a whole document, or (after [open(..., 'w')] and until
    [json.dump] has finished) at most a prefix of one. *)
Inductive FileContent :=
  | Complete (doc : list JsonObject)
  | Incomplete.

Record World := mkWorld {
  files : gmap string FileContent;
  unopenable : gset string;   (* paths on which open(path, 'w') raises OSError *)
  unwritable : gset string;   (* paths on which writing raises OSError *)
  stdout : list string        (* lines printed so far *)
}.

(** Computations that read and change the world and may raise. *)
Definition IO (A : Type) : Type := World → (Exception + A) * World.

#[global] Instance IO_ret : MRet IO := λ A a w, (inr a, w).
#[global] Instance IO_bind : MBind IO := λ A B k m w,
  match m w with
  | (inl e, w') => (inl e, w')
  | (inr a, w') => k a w'
  end.

(** [try: body except Exception as e: handler(e)] *)
Definition try_except {A} (body : IO A) (handler : Exception → IO A) : IO A :=
  λ w, match body w with
       | (inl e, w') => handler e w'
       | (inr a, w') => (inr a, w')
       end.

Definition print (line : string) : IO unit :=
  λ w, (inr (), mkWorld (files w) (unopenable w) (unwritable w) (stdout w ++ [line])).

Definition set_file (path : string) (c : FileContent) (w : World) : World :=
  mkWorld (<[path := c]> (files w)) (unopenable w) (unwritable w) (stdout w).

(** [open(path, 'w')]: raises [OSError], or creates/truncates the file. *)
Definition open_w (path : string) : IO unit :=
  λ w, if decide (path ∈ unopenable w)
       then (inl (mkException "OSError" ("cannot open " +:+ path)), w)
       else (inr (), set_file path Incomplete w).

(** The default [json] encoder knows [None], [str], [int], lists and
    dictionaries with string keys; any other object makes it raise
    [TypeError]. *)
Definition json_of_val (v : PyVal) : Exception + Json :=
  match v with
  | VNone => inr JNull
  | VStr s => inr (JString s)
  | VInt n => inr (JNumber n)
  | VFlagValue _ =>
      inl (mkException "TypeError"
             "Object of type FlagValue is not JSON serializable")
  end.

Fixpoint json_of_dict (d : PacketInfo) : Exception + JsonObject :=
  match d with
  | [] => inr []
  | (k, v) :: d' =>
      match json_of_val v with
      | inl e => inl e
      | inr j =>
          match json_of_dict d' with
          | inl e => inl e
          | inr js => inr ((k, j) :: js)
          end
      end
  end.

Fixpoint json_of_list (l : list PacketInfo) : Exception + list JsonObject :=
  match l with
  | [] => inr []
  | d :: l' =>
      match json_of_dict d with
      | inl e => inl e
      | inr j =>
          match json_of_list l' with
          | inl e => inl e
          | inr js => inr (j :: js)
          end
      end
  end.

(** [json.dump(obj, f, indent=2)] on the file opened at [path]: the text is
    written as it is produced, so a failure leaves the file incomplete. *)
Definition json_dump (obj : list PacketInfo) (path : string) : IO unit :=
  λ w, match json_of_list obj with
       | inl e => (inl e, w)
       | inr js =>
           if decide (path ∈ unwritable w)
           then (inl (mkException "OSError" ("cannot write " +:+ path)), w)
           else (inr (), set_file path (Complete js) w)
       end.

(** What a call of scapy's [sniff] does: it fails to open the source, or it
    delivers frames (each at some instant) to [prn] and then returns or
    fails. *)
Inductive SniffRun :=
  | OpenFails (e : Exception)
  | Delivers (frames : list (string * Packet)) (ending : option Exception).

(** Values of the dictionary returned by [get_packet_stats]. *)
Inductive StatVal :=
  | SInt (n : Z)
  | SDict (d : list (PyVal * Z)).

(** [sorted(items, key=lambda x: x[1], reverse=True)]: Python's sort is
    stable, also under [reverse=True], so the result is the one list that is
    descending in the count and keeps items of equal count in their original
    order. It is computed here by stable insertion. *)
Fixpoint insert_by_count {K} (x : K * Z) (l : list (K * Z)) : list (K * Z) :=
  match l with
  | [] => [x]
  | y :: l' => if (x.2 <? y.2)%Z then y :: insert_by_count x l' else x :: l
  end.

Definition sorted_by_count {K} (items : list (K * Z)) : list (K * Z) :=
  foldr insert_by_count [] items.

(** ** class NetworkSniffer *)

Module NetworkSniffer.

Definition __init__ : Sniffer :=
  mkSniffer [] [] false None 0 None "".

Definition analyze_packet (now : string) (packet : Packet) : PacketInfo :=
  let layers := pkt_layers packet in
  let packet_info : PacketInfo :=
    [ ("timestamp", VStr now);
      ("length", VInt (pkt_len packet));
      ("protocol", VStr "Unknown");
      ("src_ip", VStr "Unknown");
      ("dst_ip", VStr "Unknown");
      ("src_port", VNone);
      ("dst_port", VNone);
      ("flags", VNone);
      ("payload", VNone);
      ("summary", VStr (pkt_summary packet)) ] in
  let packet_info :=
    match get_IP layers with
    | Some (src, dst, proto) =>
        let packet_info := dict_set packet_info "src_ip" (VStr src) in
        let packet_info := dict_set packet_info "dst_ip" (VStr dst) in
        let packet_info := dict_set packet_info "protocol" (VInt proto) in
        match get_TCP layers with
        | Some (sport, dport, flags) =>
            let packet_info := dict_set packet_info "src_port" (VInt sport) in
            let packet_info := dict_set packet_info "dst_port" (VInt dport) in
            let packet_info := dict_set packet_info "flags" (VFlagValue flags) in
            let packet_info := dict_set packet_info "protocol" (VStr "TCP") in
            match get_Raw layers with
            | Some payload =>
                dict_set packet_info "payload" (VStr (hexlify (take 100 payload)))
            | None => packet_info
            end
        | None =>
            match get_UDP layers with
            | Some (sport, dport) =>
                let packet_info := dict_set packet_info "src_port" (VInt sport) in
                let packet_info := dict_set packet_info "dst_port" (VInt dport) in
                let packet_info := dict_set packet_info "protocol" (VStr "UDP") in
                match get_Raw layers with
                | Some payload =>
                    dict_set packet_info "payload" (VStr (hexlify (take 100 payload)))
                | None => packet_info
                end
            | None =>
                match get_ICMP layers with
                | Some (ty, code) =>
                    let packet_info := dict_set packet_info "protocol" (VStr "ICMP") in
                    let packet_info := dict_set packet_info "icmp_type" (VInt ty) in
                    dict_set packet_info "icmp_code" (VInt code)
                | None => packet_info
                end
            end
        end
    | None =>
        match get_ARP layers with
        | Some (psrc, pdst, hwsrc, hwdst) =>
            let packet_info := dict_set packet_info "protocol" (VStr "ARP") in
            let packet_info := dict_set packet_info "src_ip" (VStr psrc) in
            let packet_info := dict_set packet_info "dst_ip" (VStr pdst) in
            let packet_info := dict_set packet_info "src_mac" (VStr hwsrc) in
            dict_set packet_info "dst_mac" (VStr hwdst)
        | None => packet_info
        end
    end in
  match get_Ether layers with
  | Some (src, dst) =>
      let packet_info := dict_set packet_info "src_mac" (VStr src) in
      dict_set packet_info "dst_mac" (VStr dst)
  | None => packet_info
  end.

(** [now] is the instant [datetime.now()] returns inside [analyze_packet]. *)
Definition packet_callback (now : string) (packet : Packet) (self : Sniffer)
  : Sniffer :=
  if negb (is_capturing self) then self
  else
    let packet_info := analyze_packet now packet in
    let self := set_packets (packets self ++ [packet_info]) self in
    let self := set_packet_queue (packet_queue self ++ [packet_info]) self in
    let self := set_packet_count (packet_count self + 1) self in
    if (len (packets self) >? 1000)%Z
    then set_packets (pop0 (packets self)) self
    else self.

(** The part of [start_capture] that runs in the calling thread. *)
Definition start_capture (interface : option string) (filter_str : string)
    (self : Sniffer) : bool * Sniffer :=
  if is_capturing self then (false, self)
  else
    let self := set_interface interface self in
    let self := set_filter filter_str self in
    let self := set_is_capturing true self in
    let self := set_packet_count 0 self in
    let self := set_capture_thread (Some (mkThread interface filter_str)) self in
    (true, self).

(** [sniff(prn=self.packet_callback, stop_filter=lambda x: not
    self.is_capturing)] once the source is open: each frame goes to the
    callback, then the stop filter is asked. *)
Fixpoint deliver (frames : list (string * Packet)) (self : Sniffer) : Sniffer :=
  match frames with
  | [] => self
  | (now, packet) :: rest =>
      let self := packet_callback now packet self in
      if negb (is_capturing self) then self else deliver rest self
  end.

(** The call of [sniff]: the object as the callbacks left it, and the
    exception the call raised, if any. *)
Definition sniff (run : SniffRun) (self : Sniffer) : Sniffer * option Exception :=
  match run with
  | OpenFails e => (self, Some e)
  | Delivers frames ending => (deliver frames self, ending)
  end.

(** The closure [capture_packets], the body of the capture thread:
    [try: sniff(...) except Exception as e: print(...)]. *)
Definition capture_packets (run : SniffRun) (self : Sniffer) : IO Sniffer :=
  let '(self, outcome) := sniff run self in
  match outcome with
  | Some e => print ("Capture error: " +:+ exc_msg e);; mret self
  | None => mret self
  end.

Definition stop_capture (self : Sniffer) : bool * Sniffer :=
  let self := set_is_capturing false self in
  (* self.capture_thread.join(timeout=1) changes no attribute *)
  (true, self).

(** One iteration of the loop of [get_packet_stats]. *)
Definition stats_step (acc : list (PyVal * Z) * list (PyVal * Z) * list (PyVal * Z))
    (packet : PacketInfo) :=
  let '(protocols, ips, ports) := acc in
  let protocol := dict_get_default packet "protocol" (VStr "Unknown") in
  let protocols :=
    dict_set protocols protocol (dict_get_default protocols protocol 0 + 1)%Z in
  let src_ip := dict_get_default packet "src_ip" (VStr "Unknown") in
  let ips :=
    if decide (src_ip ≠ VStr "Unknown")
    then dict_set ips src_ip (dict_get_default ips src_ip 0 + 1)%Z
    else ips in
  let src_port := dict_get_default packet "src_port" VNone in
  let ports :=
    if truthy src_port
    then dict_set ports src_port (dict_get_default ports src_port 0 + 1)%Z
    else ports in
  (protocols, ips, ports).

Definition get_packet_stats (self : Sniffer) : list (string * StatVal) :=
  match packets self with
  | [] => []
  | _ =>
      let '(protocols, ips, ports) :=
        foldl stats_step ([], [], []) (packets self) in
      [ ("total_packets", SInt (len (packets self)));
        ("protocols", SDict protocols);
        ("top_ips", SDict (dict_of_items (slice_to (sorted_by_count ips) 10)));
        ("top_ports", SDict (dict_of_items (slice_to (sorted_by_count ports) 10))) ]
  end.

Definition get_recent_packets (count : Z) (self : Sniffer) : list PacketInfo :=
  match packets self with
  | [] => []
  | _ => slice_from (packets self) (- count)
  end.

Definition clear_packets (self : Sniffer) : Sniffer :=
  let self := set_packets [] self in
  set_packet_count 0 self.

Definition export_packets (filename : string) (self : Sniffer)
  : IO (bool * Sniffer) :=
  try_except
    (open_w filename;;
     json_dump (packets self) filename;;
     mret (true, self))
    (λ e, print ("Export error: " +:+ exc_msg e);; mret (false, self)).

End NetworkSniffer.

(** ** class DemoNetworkSniffer *)

Module DemoNetworkSniffer.

Definition __init__ : Sniffer :=
  mkSniffer [] [] false None 0 (Some "Demo Interface") "".

(** The results of the calls of [random] in [generate_demo_packet]. *)
Inductive DemoProtocol := dTCP | dUDP | dICMP | dHTTP | dHTTPS | dDNS.
Inductive DemoFlag := fSYN | fACK | fFIN | fRST.

Definition protocol_name (p : DemoProtocol) : string :=
  match p with
  | dTCP => "TCP" | dUDP => "UDP" | dICMP => "ICMP"
  | dHTTP => "HTTP" | dHTTPS => "HTTPS" | dDNS => "DNS"
  end.

Definition flag_name (f : DemoFlag) : string :=
  match f with
  | fSYN => "SYN" | fACK => "ACK" | fFIN => "FIN" | fRST => "RST"
  end.

Record Draws := mkDraws {
  draw_protocol : DemoProtocol;   (* random.choice(protocols) *)
  draw_src : Z;                   (* random.randint(1, 254) *)
  draw_dst : Z;                   (* random.randint(1, 254) *)
  draw_src_port : Z;              (* random.randint(1024, 65535) *)
  draw_dst_port : Z;              (* random.randint(1, 1024) *)
  draw_length : Z;                (* random.randint(64, 1500) *)
  draw_flag : DemoFlag            (* random.choice(['SYN', 'ACK', 'FIN', 'RST']) *)
}.

(** [f"{port or 'N/A'}"] *)
Definition port_or_na (port : PyVal) : string :=
  match port with
  | VInt n => if truthy port then pretty n else "N/A"
  | _ => "N/A"
  end.

Definition generate_demo_packet (now : string) (r : Draws) : PacketInfo :=
  let protocol := protocol_name (draw_protocol r) in
  let src_ip := "192.168.1." +:+ pretty (draw_src r) in
  let dst_ip := "10.0.0." +:+ pretty (draw_dst r) in
  let transport :=
    match draw_protocol r with dTCP | dUDP => true | _ => false end in
  let src_port := if transport then VInt (draw_src_port r) else VNone in
  let dst_port := if transport then VInt (draw_dst_port r) else VNone in
  [ ("timestamp", VStr now);
    ("length", VInt (draw_length r));
    ("protocol", VStr protocol);
    ("src_ip", VStr src_ip);
    ("dst_ip", VStr dst_ip);
    ("src_port", src_port);
    ("dst_port", dst_port);
    ("flags", match draw_protocol r with
              | dTCP => VStr (flag_name (draw_flag r))
              | _ => VNone
              end);
    ("payload", VNone);
    ("summary", VStr (protocol +:+ " " +:+ src_ip +:+ ":" +:+ port_or_na src_port
                      +:+ " -> " +:+ dst_ip +:+ ":" +:+ port_or_na dst_port)) ].

Definition packet_callback (now : string) (r : Draws) (self : Sniffer) : Sniffer :=
  if negb (is_capturing self) then self
  else
    let packet_info := generate_demo_packet now r in
    let self := set_packets (packets self ++ [packet_info]) self in
    let self := set_packet_queue (packet_queue self ++ [packet_info]) self in
    let self := set_packet_count (packet_count self + 1) self in
    if (len (packets self) >? 1000)%Z
    then set_packets (pop0 (packets self)) self
    else self.

(** [interface or "Demo Interface"] *)
Definition interface_or_demo (interface : option string) : string :=
  match interface with
  | Some s => if decide (s = "") then "Demo Interface" else s
  | None => "Demo Interface"
  end.

Definition start_capture (interface : option string) (filter_str : string)
    (self : Sniffer) : bool * Sniffer :=
  if is_capturing self then (false, self)
  else
    let self := set_interface (Some (interface_or_demo interface)) self in
    let self := set_filter filter_str self in
    let self := set_is_capturing true self in
    let self := set_packet_count 0 self in
    let self := set_capture_thread (Some (mkThread interface filter_str)) self in
    (true, self).

(** The loop [while self.is_capturing: self.packet_callback(); time.sleep(...)]
    of the demo thread, over the draws of its successive iterations. *)
Fixpoint capture_packets (draws : list (string * Draws)) (self : Sniffer) : Sniffer :=
  match draws with
  | [] => self
  | (now, r) :: rest =>
      if is_capturing self
      then capture_packets rest (packet_callback now r self)
      else self
  end.

Definition stop_capture (self : Sniffer) : bool * Sniffer :=
  let self := set_is_capturing false self in
  (true, self).

(** One iteration of the loop of [get_packet_stats]. *)
Definition stats_step (acc : list (PyVal * Z) * list (PyVal * Z) * list (PyVal * Z))
    (packet : PacketInfo) :=
  let '(protocols, ips, ports) := acc in
  let protocol := dict_get_default packet "protocol" (VStr "Unknown") in
  let protocols :=
    dict_set protocols protocol (dict_get_default protocols protocol 0 + 1)%Z in
  let src_ip := dict_get_default packet "src_ip" (VStr "Unknown") in
  let ips :=
    if decide (src_ip ≠ VStr "Unknown")
    then dict_set ips src_ip (dict_get_default ips src_ip 0 + 1)%Z
    else ips in
  let src_port := dict_get_default packet "src_port" VNone in
  let ports :=
    if truthy src_port
    then dict_set ports src_port (dict_get_default ports src_port 0 + 1)%Z
    else ports in
  (protocols, ips, ports).

Definition get_packet_stats (self : Sniffer) : list (string * StatVal) :=
  match packets self with
  | [] => []
  | _ =>
      let '(protocols, ips, ports) :=
        foldl stats_step ([], [], []) (packets self) in
      [ ("total_packets", SInt (len (packets self)));
        ("protocols", SDict protocols);
        ("top_ips", SDict (dict_of_items (slice_to (sorted_by_count ips) 10)));
        ("top_ports", SDict (dict_of_items (slice_to (sorted_by_count ports) 10))) ]
  end.

Definition get_recent_packets (count : Z) (self : Sniffer) : list PacketInfo :=
  match packets self with
  | [] => []
  | _ => slice_from (packets self) (- count)
  end.

Definition clear_packets (self : Sniffer) : Sniffer :=
  let self := set_packets [] self in
  set_packet_count 0 self.

Definition export_packets (filename : string) (self : Sniffer)
  : IO (bool * Sniffer) :=
  try_except
    (open_w filename;;
     json_dump (packets self) filename;;
     mret (true, self))
    (λ e, print ("Export error: " +:+ exc_msg e);; mret (false, self)).

End DemoNetworkSniffer.

(** ** Notions used to state the properties *)

(** The last [n] elements of a list (the whole list if it is shorter). *)
Definition last_n {A} (n : nat) (l : list A) : list A :=
  drop (length l - n) l.

(** Frames delivered one after the other to the packet callback. *)
Definition callbacks (frames : list (string * Packet)) (self : Sniffer) : Sniffer :=
  foldl (λ s f, NetworkSniffer.packet_callback f.1 f.2 s) self frames.

(** The records the classifier builds for these frames. *)
Definition records (frames : list (string * Packet)) : list PacketInfo :=
  (λ f, NetworkSniffer.analyze_packet f.1 f.2) <$> frames.


(** A capturing sniffer: a fresh object after a successful [start_capture]. *)
Definition capturing : Sniffer :=
  (NetworkSniffer.start_capture (Some "eth0") "" NetworkSniffer.__init__).2.

(** Sample frames. The first is the TCP frame of the specification's
    scenario (SYN from 192.168.1.10:51000 to 10.0.0.5:80, 120 bytes of
    payload), the second an ARP request for 10.0.0.1 from 10.0.0.2, the third
    an IGMP membership report (IP protocol 2). *)
Definition tcp_frame : Packet :=
  mkPacket
    [ Ether "00:1a:2b:3c:4d:5e" "00:1a:2b:3c:4d:5f";
      IP "192.168.1.10" "10.0.0.5" 6;
      TCP 51000 80 2;
      Raw (replicate 120 x41) ]
    174 "Ether / IP / TCP 192.168.1.10:51000 > 10.0.0.5:http S / Raw".

Definition arp_frame : Packet :=
  mkPacket
    [ Ether "00:1a:2b:3c:4d:5e" "ff:ff:ff:ff:ff:ff";
      ARP "10.0.0.2" "10.0.0.1" "00:1a:2b:3c:4d:5e" "00:00:00:00:00:00" ]
    42 "Ether / ARP who has 10.0.0.1 says 10.0.0.2".


(** The scenario with 1005 frames: frame [i] arrives at instant [i]. *)
Definition scenario_frames : list (string * Packet) :=
  (λ i : nat, (pretty i, tcp_frame)) <$> seq 0 1005.

(** The value the specification expects from [stats] on an empty history. *)
Definition empty_stats : list (string * StatVal) :=
  [ ("total_packets", SInt 0);
    ("protocols", SDict []);
    ("top_ips", SDict []);
    ("top_ports", SDict []) ].

(** A sniffer that captured one TCP frame and then one ARP frame. *)
Definition two_records : Sniffer :=
  callbacks [("2024-05-01T10:00:00", tcp_frame); ("2024-05-01T10:00:01", arp_frame)]
            capturing.



(** A world with no files, where every path can be opened and written. *)
Definition empty_world : World := mkWorld ∅ ∅ ∅ [].

(** The failure of the packet source on an interface that does not exist. *)
Definition no_such_device : Exception :=
  mkException "OSError" "No such device: nonexistent0".

(** A sniffer whose history holds the record of one TCP frame. *)
Definition one_tcp_record : Sniffer :=
  callbacks [("2024-05-01T10:00:00", tcp_frame)] capturing.

(** A demo sniffer whose history holds one generated TCP record. *)
Definition one_demo_record : Sniffer :=
  DemoNetworkSniffer.packet_callback "2024-05-01T10:00:00"
    (DemoNetworkSniffer.mkDraws DemoNetworkSniffer.dTCP 10 5 51000 80 120
                                DemoNetworkSniffer.fSYN)
    (DemoNetworkSniffer.start_capture None "" DemoNetworkSniffer.__init__).2.

(** The lines a computation printed. *)
Definition printed {A} (r : (Exception + A) * World) : list string := stdout r.2.

(** ** Notions used to state the properties of the statistics *)

(** [d[k] = d.get(k, 0) + 1], the counting step of [get_packet_stats], and
    the table it builds from a sequence of keys. *)
Definition count_key {K} `{EqDecision K} (d : list (K * Z)) (k : K) : list (K * Z) :=
  dict_set d k (dict_get_default d k 0 + 1)%Z.

Definition count_keys {K} `{EqDecision K} (obs : list K) : list (K * Z) :=
  foldl count_key [] obs.

(** What [get_packet_stats] reads from a record. *)
Definition protocol_of (p : PacketInfo) : PyVal :=
  dict_get_default p "protocol" (VStr "Unknown").
Definition src_ip_of (p : PacketInfo) : PyVal :=
  dict_get_default p "src_ip" (VStr "Unknown").
Definition src_port_of (p : PacketInfo) : PyVal :=
  dict_get_default p "src_port" VNone.

(** The source addresses and source ports that are counted, in the order of
    the history: "Unknown" addresses and false ports ([None], 0) are left
    out. *)
Definition observed_ips (history : list PacketInfo) : list PyVal :=
  filter (λ v, v ≠ VStr "Unknown") (src_ip_of <$> history).
Definition observed_ports (history : list PacketInfo) : list PyVal :=
  filter (λ v, truthy v = true) (src_port_of <$> history).

(** How often [k] occurs in [obs]. *)
Definition occurrences {K} `{EqDecision K} (k : K) (obs : list K) : Z :=
  len (filter (λ x, x = k) obs).

(** [k1] occurs in [obs] before the first occurrence of [k2], if any. *)
Definition seen_before {K} (k1 k2 : K) (obs : list K) : Prop :=
  ∃ pre post, obs = pre ++ k1 :: post ∧ (k2 ∉ pre) ∧ k1 ≠ k2.

(** A table sorted by count, largest first. *)
Definition descending {K} (t : list (K * Z)) : Prop :=
  StronglySorted (λ a b, (b.2 ≤ a.2)%Z) t.

(** Entries of equal count stand in the table in the order in which their
    keys were first observed. *)
Definition ties_first_seen {K} (obs : list K) (t : list (K * Z)) : Prop :=
  ∀ k1 k2 c, [(k1, c); (k2, c)] `sublist_of` t → seen_before k1 k2 obs.

(** [dict(sorted(d.items(), key=lambda x: x[1], reverse=True)[:10])] *)
Definition top10 {K} `{EqDecision K} (d : list (K * Z)) : list (K * Z) :=
  dict_of_items (slice_to (sorted_by_count d) 10).

(** A UDP datagram to 10.0.0.5:53 from the given address and port. *)
Definition udp_from (src : string) (sport : Z) : Packet :=
  mkPacket [Ether "00:1a:2b:3c:4d:5e" "00:1a:2b:3c:4d:5f"; IP src "10.0.0.5" 17;
            UDP sport 53]
           60 "Ether / IP / UDP".

(** A sniffer that captured, in this order, datagrams from the addresses
    .1, .2, .2, .3, .1, .2 (ports 5001, 5002, 5002, 0, 5001, 5003) and an
    Ethernet frame without any IP or ARP layer. *)
Definition mixed_history : Sniffer :=
  callbacks
    [ ("t1", udp_from "192.168.1.1" 5001);
      ("t2", udp_from "192.168.1.2" 5002);
      ("t3", udp_from "192.168.1.2" 5002);
      ("t4", udp_from "192.168.1.3" 0);
      ("t5", udp_from "192.168.1.1" 5001);
      ("t6", udp_from "192.168.1.2" 5003);
      ("t7", mkPacket [Ether "00:1a:2b:3c:4d:5e" "ff:ff:ff:ff:ff:ff"] 60 "Ether") ]
    capturing.

(** The calls that reach a sniffer object, from the capture thread
    ([Callback]) and from its users, and a run of such calls. *)
Inductive Op :=
  | Callback (now : string) (packet : Packet)
  | Start (interface : option string) (filter_str : string)
  | Stop
  | Clear.

Definition step (self : Sniffer) (op : Op) : Sniffer :=
  match op with
  | Callback now packet => NetworkSniffer.packet_callback now packet self
  | Start interface filter_str =>
      (NetworkSniffer.start_capture interface filter_str self).2
  | Stop => (NetworkSniffer.stop_capture self).2
  | Clear => NetworkSniffer.clear_packets self
  end.

Definition run (ops : list Op) (self : Sniffer) : Sniffer := foldl step self ops.

(** Unfolds the body of [export_packets] down to the world it acts on. *)
Ltac unfold_export :=
  unfold NetworkSniffer.export_packets, DemoNetworkSniffer.export_packets,
    try_except, mbind, IO_bind, open_w, json_dump.


(** The sum of the counts of a table. *)
Definition total {K} (d : list (K * Z)) : Z :=
  foldr (λ kv acc, kv.2 + acc)%Z 0%Z d.

(** A sniffer that captured one datagram from each of the addresses
    10.1.0.1 to 10.1.0.12 and then a second one from 10.1.0.12. *)
Definition many_sources : Sniffer :=
  callbacks
    (((λ i : nat, (pretty i, udp_from ("10.1.0." +:+ pretty i) 4000)) <$> seq 1 12)
       ++ [("13", udp_from "10.1.0.12" 4000)])
    capturing.

(** The entry of the statistics under [key], if it is a table. *)
Definition stats_table (self : Sniffer) (key : string) : list (PyVal * Z) :=
  match dict_get (NetworkSniffer.get_packet_stats self) key with
  | Some (SDict t) => t
  | _ => []
  end.

(** The keys every record starts with, in the order of the dictionary
    literal of [analyze_packet] and [generate_demo_packet]. *)
Definition base_keys : list string :=
  ["timestamp"; "length"; "protocol"; "src_ip"; "dst_ip"; "src_port";
   "dst_port"; "flags"; "payload"; "summary"].

(** The keys only some records have. *)
Definition optional_keys : list string :=
  ["icmp_type"; "icmp_code"; "src_mac"; "dst_mac"].

(** The lower-case hexadecimal digits. *)
Definition hex_digits : list ascii :=
  ["0"; "1"; "2"; "3"; "4"; "5"; "6"; "7"; "8"; "9";
   "a"; "b"; "c"; "d"; "e"; "f"]%char.

(** Case analysis on the layers [analyze_packet] looks at. *)
Ltac analyze_cases packet :=
  unfold NetworkSniffer.analyze_packet;
  destruct (get_IP (pkt_layers packet)) as [[[?src ?dst] ?proto]|];
  [destruct (get_TCP (pkt_layers packet)) as [[[?sport ?dport] ?flags]|];
   [|destruct (get_UDP (pkt_layers packet)) as [[?sport ?dport]|];
     [|destruct (get_ICMP (pkt_layers packet)) as [[?ty ?code]|]]]
  |destruct (get_ARP (pkt_layers packet)) as [[[[?psrc ?pdst] ?hwsrc] ?hwdst]|]];
  destruct (get_Raw (pkt_layers packet)) as [?payload|];
  destruct (get_Ether (pkt_layers packet)) as [[?esrc ?edst]|].

(** The calls that reach a demo sniffer, and a run of such calls. *)
Inductive DemoOp :=
  | DemoCallback (now : string) (draws : DemoNetworkSniffer.Draws)
  | DemoStart (interface : option string) (filter_str : string)
  | DemoStop
  | DemoClear.

Definition demo_step (self : Sniffer) (op : DemoOp) : Sniffer :=
  match op with
  | DemoCallback now draws => DemoNetworkSniffer.packet_callback now draws self
  | DemoStart interface filter_str =>
      (DemoNetworkSniffer.start_capture interface filter_str self).2
  | DemoStop => (DemoNetworkSniffer.stop_capture self).2
  | DemoClear => DemoNetworkSniffer.clear_packets self
  end.

Definition demo_run (ops : list DemoOp) (self : Sniffer) : Sniffer :=
  foldl demo_step self ops.

(** The protocol names the demo sniffer draws from. *)
Definition demo_protocols : list PyVal :=
  [VStr "TCP"; VStr "UDP"; VStr "ICMP"; VStr "HTTP"; VStr "HTTPS"; VStr "DNS"].

(** The records the demo sniffer generates from these draws. *)
Definition demo_records (draws : list (string * DemoNetworkSniffer.Draws))
  : list PacketInfo :=
  (λ d, DemoNetworkSniffer.generate_demo_packet d.1 d.2) <$> draws.

(** ** The command-line view (cli_sniffer.py) *)

(** A [rich] table: its settings, its columns and its rows of cells. *)
Record Column := mkColumn {
  col_header : string;
  col_style : string
}.

Record Table := mkTable {
  tbl_title : string;
  tbl_show_header : bool;
  tbl_header_style : string;
  tbl_columns : list Column;
  tbl_rows : list (list string)
}.

Definition add_row (row : list string) (t : Table) : Table :=
  mkTable (tbl_title t) (tbl_show_header t) (tbl_header_style t)
          (tbl_columns t) (tbl_rows t ++ [row]).

Definition add_column (header style : string) (t : Table) : Table :=
  mkTable (tbl_title t) (tbl_show_header t) (tbl_header_style t)
          (tbl_columns t ++ [mkColumn header style]) (tbl_rows t).

(** [str(v)] for an entry of the statistics. The text Python prints for a
    dictionary is left to [repr_dict]. *)
Definition str_stat (repr_dict : list (PyVal * Z) → string) (v : StatVal) : string :=
  match v with
  | SInt n => pretty n
  | SDict d => repr_dict d
  end.

(** [len(v)] for an entry of the statistics: an integer has no length. *)
Definition len_stat (v : StatVal) : Exception + Z :=
  match v with
  | SInt _ => inl (mkException "TypeError" "object of type 'int' has no len()")
  | SDict d => inr (len d)
  end.

Definition create_stats_table (repr_dict : list (PyVal * Z) → string)
    (stats : list (string * StatVal)) : Exception + Table :=
  let table := mkTable "Packet Statistics" true "bold magenta" [] [] in
  let table := add_column "Metric" "cyan" table in
  let table := add_column "Value" "green" table in
  match stats with
  | _ :: _ =>
      let table :=
        add_row ["Total Packets";
                 str_stat repr_dict (dict_get_default stats "total_packets" (SInt 0))]
                table in
      match len_stat (dict_get_default stats "protocols" (SDict [])) with
      | inl e => inl e
      | inr n_protocols =>
          let table := add_row ["Protocols Detected"; pretty n_protocols] table in
          match len_stat (dict_get_default stats "top_ips" (SDict [])) with
          | inl e => inl e
          | inr n_ips =>
              let table := add_row ["Unique IPs"; pretty n_ips] table in
              match len_stat (dict_get_default stats "top_ports" (SDict [])) with
              | inl e => inl e
              | inr n_ports =>
                  inr (add_row ["Active Ports"; pretty n_ports] table)
              end
          end
      end
  | [] =>
      let table := add_row ["Total Packets"; "0"] table in
      let table := add_row ["Protocols Detected"; "0"] table in
      let table := add_row ["Unique IPs"; "0"] table in
      inr (add_row ["Active Ports"; "0"] table)
  end.

(** ** Configuration (config.py) *)

(** The module-level settings that [validate_config] reads. *)
Record Config := mkConfig {
  WEB_PORT : Z;
  DEMO_PORT : Z;
  MAX_PACKETS_IN_MEMORY : Z;
  PACKET_CAPTURE_TIMEOUT : Z
}.

(** The values the module assigns before [load_from_env]. *)
Definition default_config : Config := mkConfig 5000 5001 1000 30.

Definition validate_config (c : Config) : list string :=
  let errors := [] in
  let errors :=
    if ((WEB_PORT c <? 1) || (WEB_PORT c >? 65535))%Z
    then errors ++ ["WEB_PORT must be between 1 and 65535"] else errors in
  let errors :=
    if ((DEMO_PORT c <? 1) || (DEMO_PORT c >? 65535))%Z
    then errors ++ ["DEMO_PORT must be between 1 and 65535"] else errors in
  let errors :=
    if (WEB_PORT c =? DEMO_PORT c)%Z
    then errors ++ ["WEB_PORT and DEMO_PORT must be different"] else errors in
  let errors :=
    if (MAX_PACKETS_IN_MEMORY c <? 1)%Z
    then errors ++ ["MAX_PACKETS_IN_MEMORY must be at least 1"] else errors in
  let errors :=
    if (PACKET_CAPTURE_TIMEOUT c <? 1)%Z
    then errors ++ ["PACKET_CAPTURE_TIMEOUT must be at least 1 second"] else errors in
  errors.

(** ** Interface information (network_sniffer.py, cli_sniffer.py) *)

(** [NetworkSniffer.get_interface_info]. The two scapy lookups
    [get_if_hwaddr] and [get_if_addr] are inputs: each returns an address or
    raises. The dictionary literal evaluates them in order, [get_if_addr]
    twice. *)
Definition get_interface_info
    (get_if_hwaddr get_if_addr : string → Exception + string)
    (interface : string) : list (string * string) :=
  let attempt : Exception + list (string * string) :=
    match get_if_hwaddr interface with
    | inl e => inl e
    | inr mac =>
        match get_if_addr interface with
        | inl e => inl e
        | inr ip =>
            match get_if_addr interface with
            | inl e => inl e
            | inr netmask =>
                inr [("name", interface); ("mac", mac); ("ip", ip);
                     ("netmask", netmask)]
            end
        end
    end in
  match attempt with
  | inr info => info
  | inl e =>
      [("name", interface); ("mac", "N/A"); ("ip", "N/A"); ("netmask", "N/A");
       ("error", exc_msg e)]
  end.

(** The row that [list_interfaces] adds to its table for one interface. No
    step of the loop body can raise, so its [except] branch is left out. *)
Definition interface_row
    (get_if_hwaddr get_if_addr : string → Exception + string)
    (interface : string) : list string :=
  let info := get_interface_info get_if_hwaddr get_if_addr interface in
  let ip := dict_get_default info "ip" "N/A" in
  let mac := dict_get_default info "mac" "N/A" in
  let status := if decide (ip ≠ "N/A") then "Available" else "No IP" in
  [interface; ip; mac; status].

(** ** The live view of the demo application (demo_app.py) *)

(** What [socketio.emit] is called with. *)
Inductive Emitted :=
  | NewPacket (packet : PacketInfo)
  | StatsUpdate (stats : list (string * StatVal)).

(** The loop [while not queue.empty(): packet = queue.get_nowait();
    socketio.emit('new_packet', packet)]. [emit_error] tells for which calls
    [socketio.emit] raises. The result is what was sent, what is left in the
    queue and the exception that ended the loop, if any: a packet is taken
    from the queue before it is emitted. *)
Fixpoint drain_queue (emit_error : Emitted → option Exception)
    (queue : list PacketInfo) (sent : list Emitted)
  : list Emitted * list PacketInfo * option Exception :=
  match queue with
  | [] => (sent, [], None)
  | packet :: rest =>
      match emit_error (NewPacket packet) with
      | Some e => (sent, rest, Some e)
      | None => drain_queue emit_error rest (sent ++ [NewPacket packet])
      end
  end.

(** One iteration of [background_packet_emitter] (the sleep apart), on the
    demo sniffer of the application. *)
Definition emitter_iteration (emit_error : Emitted → option Exception)
    (self : Sniffer) : IO (list Emitted * Sniffer) :=
  if is_capturing self then
    let '(sent, queue, failure) := drain_queue emit_error (packet_queue self) [] in
    let self := set_packet_queue queue self in
    match failure with
    | Some e =>
        print ("Background emitter error: " +:+ exc_msg e);; mret (sent, self)
    | None =>
        let stats := DemoNetworkSniffer.get_packet_stats self in
        match emit_error (StatsUpdate stats) with
        | Some e =>
            print ("Background emitter error: " +:+ exc_msg e);; mret (sent, self)
        | None => mret (sent ++ [StatsUpdate stats], self)
        end
    end
  else mret ([], self).

(** The packets among the things sent. *)
Definition sent_packets (sent : list Emitted) : list PacketInfo :=
  omap (λ ev, match ev with NewPacket p => Some p | StatsUpdate _ => None end) sent.
(** * Properties *)

(** ** The bounded history *)

Section History.
Context {A : Type}.
Implicit Types l h : list A.

Lemma last_n_length n l : length (last_n n l) = length l `min` n.
Proof. unfold last_n. rewrite length_drop. lia. Qed.

Lemma last_n_short n l : length l ≤ n → last_n n l = l.
Proof.
  intros Hl. unfold last_n. by replace (length l - n) with 0 by lia.
Qed.

Lemma last_n_app_short n l h : length h ≥ n → last_n n (l ++ h) = last_n n h.
Proof.
  intros Hh. unfold last_n. rewrite length_app.
  replace (length l + length h - n) with (length l + (length h - n)) by lia.
  by rewrite drop_app_add.
Qed.

(** Appending to a window and dropping its head when it overflows gives the
    window of the longer sequence. *)
Lemma last_n_snoc n l x :
  0 < n →
  last_n n (l ++ [x]) =
    if decide (n < length (last_n n l ++ [x]))
    then drop 1 (last_n n l ++ [x])
    else last_n n l ++ [x].
Proof.
  intros Hn. rewrite length_app, last_n_length. simpl.
  unfold last_n. rewrite length_app. simpl.
  case_decide as Hc.
  - rewrite <- (drop_app_le l [x]) by lia.
    rewrite drop_drop. f_equal. lia.
  - replace (length l + 1 - n) with 0 by lia.
    by replace (length l - n) with 0 by lia.
Qed.
End History.

Lemma len_gtb {A} (l : list A) (n : nat) :
  (len l >? Z.of_nat n)%Z = bool_decide (n < length l).
Proof.
  unfold len. rewrite Z.gtb_ltb.
  destruct (Z.ltb_spec (Z.of_nat n) (Z.of_nat (length l)));
    [rewrite bool_decide_eq_true_2 | rewrite bool_decide_eq_false_2]; auto; lia.
Qed.

(** What one call of the callback does to a capturing sniffer. *)
Lemma packet_callback_capturing now packet self :
  is_capturing self = true →
  let r := NetworkSniffer.analyze_packet now packet in
  let self' := NetworkSniffer.packet_callback now packet self in
  packets self' =
    (if decide (1000 < length (packets self ++ [r]))
     then drop 1 (packets self ++ [r]) else packets self ++ [r])
  ∧ packet_queue self' = packet_queue self ++ [r]
  ∧ packet_count self' = (packet_count self + 1)%Z
  ∧ is_capturing self' = true.
Proof.
  intros Hcap. unfold NetworkSniffer.packet_callback. rewrite Hcap. simpl.
  change 1000%Z with (Z.of_nat 1000). rewrite len_gtb.
  unfold pop0. case_bool_decide; case_decide; try lia; simpl; auto.
Qed.

Lemma callbacks_window frames : ∀ self all,
  is_capturing self = true →
  packets self = last_n 1000 all →
  packets (callbacks frames self) = last_n 1000 (all ++ records frames)
  ∧ is_capturing (callbacks frames self) = true.
Proof.
  induction frames as [|[now packet] frames IH]; intros self all Hcap Hwin.
  - simpl. by rewrite app_nil_r.
  - destruct (packet_callback_capturing now packet self Hcap)
      as (Hp & _ & _ & Hc).
    unfold callbacks, records in *. simpl.
    rewrite cons_middle, app_assoc. apply IH; [done|].
    rewrite Hp, Hwin. symmetry. apply last_n_snoc. lia.
Qed.

(** The bound holds in every state a sniffer can reach from its creation,
    whatever calls it receives. *)
Lemma step_bounded (self : Sniffer) (op : Op) :
  length (packets self) ≤ 1000 → length (packets (step self op)) ≤ 1000.
Proof.
  intros Hlen. destruct op as [now packet|iface filter_str| |]; simpl.
  - destruct (is_capturing self) eqn:Hcap.
    + destruct (packet_callback_capturing now packet self Hcap) as (-> & _).
      case_decide; rewrite ?length_drop, length_app in *; simpl in *; lia.
    + unfold NetworkSniffer.packet_callback. by rewrite Hcap.
  - unfold NetworkSniffer.start_capture. by destruct (is_capturing self).
  - done.
  - lia.
Qed.

Lemma run_bounded (ops : list Op) :
  length (packets (run ops NetworkSniffer.__init__)) ≤ 1000.
Proof.
  unfold run. induction ops as [|op ops IH] using rev_ind; [simpl; lia|].
  rewrite foldl_snoc. by apply step_bounded.
Qed.

(** ** The recent-packets accessor *)

Lemma slice_from_neg {A} (l : list A) (n : Z) :
  (0 < n)%Z → slice_from l (- n) = last_n (Z.to_nat n) l.
Proof.
  intros Hn. unfold slice_from, last_n, len.
  destruct (Z.ltb_spec (- n) 0); [|lia]. f_equal. lia.
Qed.

Lemma slice_from_nonneg {A} (l : list A) (n : Z) :
  (0 ≤ n)%Z → slice_from l n = drop (Z.to_nat n) l.
Proof.
  intros Hn. unfold slice_from, len.
  destruct (Z.ltb_spec n 0); [lia|].
  destruct (Z.le_ge_cases n (Z.of_nat (length l))).
  - by rewrite Z.min_l.
  - rewrite Z.min_r, Nat2Z.id by done.
    rewrite !drop_ge; [done|lia..].
Qed.

(** For a positive count the accessor returns the last [count] records. *)
Lemma get_recent_packets_pos (count : Z) (self : Sniffer) :
  (0 < count)%Z →
  NetworkSniffer.get_recent_packets count self
  = last_n (Z.to_nat count) (packets self).
Proof.
  intros Hc. unfold NetworkSniffer.get_recent_packets.
  destruct (packets self) eqn:E; [done|]. by apply slice_from_neg.
Qed.

(** For a count that is zero or negative it returns the history without its
    first [-count] records. *)
Lemma get_recent_packets_nonpos (count : Z) (self : Sniffer) :
  (count ≤ 0)%Z →
  NetworkSniffer.get_recent_packets count self
  = drop (Z.to_nat (- count)) (packets self).
Proof.
  intros Hc. unfold NetworkSniffer.get_recent_packets.
  destruct (packets self) eqn:E; [by rewrite drop_nil|].
  apply slice_from_nonneg. lia.
Qed.

(** C1. Whatever frames the packet callback receives while capturing, the
    history never holds more than 1000 records: it is the last 1000 of the
    records it held followed by the records appended, hence exactly the last
    1000 appended records (also as [get_recent_packets 1000] reads them) once
    more than 1000 were appended; and an append to a full history evicts the
    single oldest record. *)
Theorem history_keeps_last_1000 (frames : list (string * Packet)) (self : Sniffer) :
  is_capturing self = true →
  length (packets self) ≤ 1000 →
  let self' := callbacks frames self in
  length (packets self') ≤ 1000
  ∧ packets self' = last_n 1000 (packets self ++ records frames)
  ∧ (1000 < length frames →
       length (packets self') = 1000
       ∧ packets self' = last_n 1000 (records frames)
       ∧ NetworkSniffer.get_recent_packets 1000 self' = last_n 1000 (records frames))
  ∧ (∀ now packet,
       length (packets self') = 1000 →
       packets (NetworkSniffer.packet_callback now packet self')
       = drop 1 (packets self') ++ [NetworkSniffer.analyze_packet now packet]).
Proof.
  intros Hcap Hlen self'.
  destruct (callbacks_window frames self (packets self) Hcap) as [Hwin Hcap'].
  { by rewrite last_n_short. }
  fold self' in Hwin, Hcap'.
  assert (Hbound : length (packets self') ≤ 1000).
  { rewrite Hwin, last_n_length. lia. }
  split_and!; [done..| |].
  - intros Hmany.
    assert (Hrec : length (records frames) ≥ 1000).
    { unfold records. rewrite length_fmap. lia. }
    assert (Heq : packets self' = last_n 1000 (records frames)).
    { rewrite Hwin. by apply last_n_app_short. }
    split_and!; [|done|].
    + rewrite Heq, last_n_length. lia.
    + rewrite get_recent_packets_pos by lia.
      change (Z.to_nat 1000) with 1000.
      rewrite Heq. apply last_n_short. rewrite last_n_length. lia.
  - intros now packet Hfull.
    destruct (packet_callback_capturing now packet self' Hcap') as (Hp & _).
    rewrite Hp. rewrite decide_True; [|rewrite length_app; simpl; lia].
    rewrite drop_app_le; [done|lia].
Qed.

Lemma history_keeps_last_1000_witness :
  let self' := callbacks scenario_frames capturing in
  length (packets self') = 1000
  ∧ packets self' = last_n 1000 (records scenario_frames).
Proof.
  assert (Hcap : is_capturing capturing = true) by reflexivity.
  assert (Hlen : length (packets capturing) ≤ 1000) by (simpl; lia).
  assert (Hmany : 1000 < length scenario_frames) by (vm_compute; lia).
  destruct (history_keeps_last_1000 scenario_frames capturing Hcap Hlen)
    as (_ & _ & H & _).
  destruct (H Hmany) as (H1 & H2 & _). exact (conj H1 H2).
Defined.

(** The scenario of the specification: after 1005 appends the history holds
    1000 records, the 5 oldest are gone, and [get_recent_packets 3] is the 3
    records appended last. *)
Lemma scenario_1005 (frames : list (string * Packet)) :
  length frames = 1005 →
  let self' := callbacks frames capturing in
  length (packets self') = 1000
  ∧ packets self' = drop 5 (records frames)
  ∧ NetworkSniffer.get_recent_packets 3 self' = drop 1002 (records frames).
Proof.
  intros Hlen self'.
  destruct (callbacks_window frames capturing [] eq_refl eq_refl) as [Hwin _].
  fold self' in Hwin. simpl in Hwin.
  assert (Hrec : length (records frames) = 1005).
  { unfold records. by rewrite length_fmap. }
  assert (Heq : packets self' = drop 5 (records frames)).
  { rewrite Hwin. unfold last_n. rewrite Hrec. f_equal. }
  split_and!; [|done|].
  - rewrite Heq, length_drop. lia.
  - rewrite get_recent_packets_pos by lia. unfold last_n.
    rewrite Heq, length_drop, drop_drop, Hrec. f_equal.
Qed.

(** C2. [get_recent_packets] with [count = 0] on a history of two records
    returns both records, where the last [min(0, size)] records would be the
    empty sequence: the slice [packets[-0:]] is the whole list. *)
Theorem get_recent_packets_zero_returns_all :
  NetworkSniffer.get_recent_packets 0 two_records = packets two_records
  ∧ length (NetworkSniffer.get_recent_packets 0 two_records) = 2
  ∧ length (NetworkSniffer.get_recent_packets (-1) two_records) = 1
  ∧ DemoNetworkSniffer.get_recent_packets 0 two_records = packets two_records.
Proof. by vm_compute. Qed.

(** ** Statistics of an empty history *)

(** C3 (as stated) fails: on a fresh sniffer the statistics are not the
    zeroed value, they have no entry [total_packets] at all. *)
Lemma get_packet_stats_empty_not_zeroed :
  NetworkSniffer.get_packet_stats NetworkSniffer.__init__ ≠ empty_stats
  ∧ dict_get (NetworkSniffer.get_packet_stats NetworkSniffer.__init__)
             "total_packets" = None.
Proof. split; [discriminate | reflexivity]. Qed.

(** C3 (amended). On an empty history [get_packet_stats] returns the empty
    dictionary: it has none of the four entries, and the call always returns
    (the function is total). *)
Theorem get_packet_stats_empty (self : Sniffer) :
  packets self = [] →
  NetworkSniffer.get_packet_stats self = []
  ∧ ∀ key, dict_get (NetworkSniffer.get_packet_stats self) key = None.
Proof.
  intros Hempty. unfold NetworkSniffer.get_packet_stats. by rewrite Hempty.
Qed.

Lemma get_packet_stats_empty_witness :
  NetworkSniffer.get_packet_stats NetworkSniffer.__init__ = [].
Proof.
  exact (proj1 (get_packet_stats_empty NetworkSniffer.__init__ eq_refl)).
Defined.

(** ** The start/stop/clear state machine *)

(** C6. [start_capture] on a capturing sniffer returns [False] and changes
    nothing; on an idle sniffer it records the interface and the filter, sets
    the packet count to 0, marks the sniffer capturing and returns [True]
    at once, leaving the history and the queue as they were. *)
Theorem start_capture_spec (iface : option string) (filter_str : string)
    (self : Sniffer) :
  (is_capturing self = true →
     NetworkSniffer.start_capture iface filter_str self = (false, self))
  ∧ (is_capturing self = false →
     let r := NetworkSniffer.start_capture iface filter_str self in
     r.1 = true
     ∧ interface r.2 = iface
     ∧ filter_ r.2 = filter_str
     ∧ packet_count r.2 = 0%Z
     ∧ is_capturing r.2 = true
     ∧ capture_thread r.2 = Some (mkThread iface filter_str)
     ∧ packets r.2 = packets self
     ∧ packet_queue r.2 = packet_queue self).
Proof.
  unfold NetworkSniffer.start_capture.
  split; intros Hcap; rewrite Hcap; simpl; auto 10.
Qed.

Lemma start_capture_spec_witness :
  NetworkSniffer.start_capture (Some "wlan0") "tcp" two_records
    = (false, two_records)
  ∧ (NetworkSniffer.start_capture (Some "wlan0") "tcp" NetworkSniffer.__init__).1
    = true.
Proof.
  split.
  - exact (proj1 (start_capture_spec (Some "wlan0") "tcp" two_records) eq_refl).
  - exact (proj1 (proj2 (start_capture_spec (Some "wlan0") "tcp"
                           NetworkSniffer.__init__) eq_refl)).
Defined.

(** C8. [clear_packets] is defined on every state, capturing or not: it
    empties the history, so that [get_recent_packets] returns nothing for
    every count, and sets the packet count to 0; the capturing flag, the
    interface and the filter keep their values. *)
Theorem clear_packets_spec (self : Sniffer) :
  let self' := NetworkSniffer.clear_packets self in
  packets self' = []
  ∧ packet_count self' = 0%Z
  ∧ (∀ count, NetworkSniffer.get_recent_packets count self' = [])
  ∧ is_capturing self' = is_capturing self
  ∧ interface self' = interface self
  ∧ filter_ self' = filter_ self.
Proof. by split_and!. Qed.

(** C9. A frame delivered while [is_capturing] is false changes nothing, in
    the real sniffer and in the demo sniffer: history, queue and packet count
    are as before. So after [stop_capture] no sequence of late deliveries
    stores or counts a record. *)
Theorem packet_callback_idle_noop (self : Sniffer) :
  is_capturing self = false →
  (∀ now packet, NetworkSniffer.packet_callback now packet self = self)
  ∧ (∀ now draws, DemoNetworkSniffer.packet_callback now draws self = self)
  ∧ (∀ frames, callbacks frames self = self)
  ∧ (∀ frames, NetworkSniffer.deliver frames self = self).
Proof.
  intros Hidle.
  assert (H1 : ∀ now packet, NetworkSniffer.packet_callback now packet self = self).
  { intros. unfold NetworkSniffer.packet_callback. by rewrite Hidle. }
  split_and!; [done| | |].
  - intros. unfold DemoNetworkSniffer.packet_callback. by rewrite Hidle.
  - intros frames. unfold callbacks.
    induction frames as [|[now packet] frames IH]; [done|].
    simpl. by rewrite H1.
  - intros [|[now packet] frames]; [done|]. simpl. by rewrite H1, Hidle.
Qed.

Lemma packet_callback_idle_noop_witness :
  let stopped := (NetworkSniffer.stop_capture two_records).2 in
  callbacks scenario_frames stopped = stopped.
Proof.
  exact (proj1 (proj2 (proj2
    (packet_callback_idle_noop (NetworkSniffer.stop_capture two_records).2 eq_refl)))
    scenario_frames).
Defined.

(** ** The frame classifier *)



(** ** Failure of the packet source *)

(** C5. On an interface that cannot be opened, [start_capture] on a fresh
    sniffer has returned [True] before [sniff] runs; the capture thread
    catches the failure, prints it and ends, and the sniffer is still marked
    capturing, with no capture running. The failure should have reached the
    caller and the sniffer should be idle again: [live_capture] in
    cli_sniffer.py tests the result of [start_capture] on a fresh sniffer to
    print "Failed to start capture!" and shows the flag as ACTIVE or
    STOPPED, yet on a fresh sniffer the result is [True] whatever the
    interface and the filter, so the caller never sees a failed start. *)
Theorem start_capture_open_failure_reports_success :
  let r := NetworkSniffer.start_capture (Some "nonexistent0") "" NetworkSniffer.__init__ in
  let t := NetworkSniffer.capture_packets (OpenFails no_such_device) r.2 empty_world in
  r.1 = true
  ∧ t.1 = inr r.2
  ∧ is_capturing r.2 = true
  ∧ packets r.2 = [] ∧ packet_count r.2 = 0%Z
  ∧ printed t = ["Capture error: No such device: nonexistent0"]
  ∧ (∀ iface filter_str,
       (NetworkSniffer.start_capture iface filter_str NetworkSniffer.__init__).1 = true).
Proof. by split_and!; try vm_compute. Qed.

(** The same happens from every idle sniffer and for every failure of the
    source: the flag that [start_capture] set is left standing by the thread,
    so that a further [start_capture] is turned away until [stop_capture]
    has been called. *)
Lemma start_capture_open_failure_any (iface : option string) (filter_str : string)
    (e : Exception) (self : Sniffer) (w : World) :
  is_capturing self = false →
  let r := NetworkSniffer.start_capture iface filter_str self in
  let t := NetworkSniffer.capture_packets (OpenFails e) r.2 w in
  r.1 = true
  ∧ is_capturing r.2 = true
  ∧ t.1 = inr r.2
  ∧ stdout t.2 = stdout w ++ ["Capture error: " +:+ exc_msg e]
  ∧ files t.2 = files w
  ∧ NetworkSniffer.start_capture iface filter_str r.2 = (false, r.2)
  ∧ is_capturing (NetworkSniffer.stop_capture r.2).2 = false.
Proof.
  intros Hidle. unfold NetworkSniffer.start_capture. rewrite Hidle.
  by split_and!.
Qed.

(** ** Export *)

Section ExportPackets.
Variables (filename : string) (self : Sniffer) (w : World).

(** The three ways [export_packets] can go. *)
Lemma export_packets_unopenable :
  filename ∈ unopenable w →
  NetworkSniffer.export_packets filename self w
  = (inr (false, self),
     mkWorld (files w) (unopenable w) (unwritable w)
             (stdout w ++ ["Export error: cannot open " +:+ filename])).
Proof.
  intros Hno.
  unfold NetworkSniffer.export_packets, try_except, mbind, IO_bind, open_w.
  by rewrite decide_True.
Qed.

Lemma export_packets_dump_fails e :
  filename ∉ unopenable w →
  json_dump (packets self) filename (set_file filename Incomplete w)
    = (inl e, set_file filename Incomplete w) →
  NetworkSniffer.export_packets filename self w
  = (inr (false, self),
     mkWorld (<[filename := Incomplete]> (files w)) (unopenable w) (unwritable w)
             (stdout w ++ ["Export error: " +:+ exc_msg e])).
Proof.
  intros Hopen Hdump.
  unfold NetworkSniffer.export_packets, try_except, mbind, IO_bind, open_w.
  rewrite decide_False by done. by rewrite Hdump.
Qed.

Lemma export_packets_written doc :
  filename ∉ unopenable w →
  filename ∉ unwritable w →
  json_of_list (packets self) = inr doc →
  NetworkSniffer.export_packets filename self w
  = (inr (true, self),
     mkWorld (<[filename := Complete doc]> (files w)) (unopenable w)
             (unwritable w) (stdout w)).
Proof.
  intros Hopen Hwrite Hdoc.
  unfold NetworkSniffer.export_packets, try_except, mbind, IO_bind, open_w,
    json_dump.
  rewrite decide_False by done. rewrite Hdoc. simpl.
  rewrite decide_False by done. simpl. unfold set_file. simpl.
  by rewrite insert_insert_eq.
Qed.

(** [export_packets] never raises and returns the sniffer as it was. *)
Lemma export_packets_returns :
  ∃ ok w', NetworkSniffer.export_packets filename self w = (inr (ok, self), w').
Proof.
  destruct (decide (filename ∈ unopenable w)) as [Hno|Hopen].
  { rewrite export_packets_unopenable by done. eauto. }
  unfold NetworkSniffer.export_packets, try_except, mbind, IO_bind, open_w,
    json_dump.
  rewrite decide_False by done.
  destruct (json_of_list (packets self)); simpl; [eauto|].
  case_decide; simpl; eauto.
Qed.
End ExportPackets.

(** The document written has one object per record, in the order of the
    history, each with the record's keys in their order. *)
Lemma json_of_dict_keys (d : PacketInfo) (o : JsonObject) :
  json_of_dict d = inr o → o.*1 = d.*1.
Proof.
  revert o. induction d as [|[k v] d IH]; intros o; simpl.
  - by intros [= <-].
  - destruct (json_of_val v); [done|].
    destruct (json_of_dict d); [done|].
    intros [= <-]. simpl. f_equal. by apply IH.
Qed.

Lemma json_of_list_complete (l : list PacketInfo) (doc : list JsonObject) :
  json_of_list l = inr doc →
  Forall2 (λ d o, json_of_dict d = inr o) l doc.
Proof.
  revert doc. induction l as [|d l IH]; intros doc; simpl.
  - intros [= <-]. constructor.
  - destruct (json_of_dict d) eqn:Hd; [done|].
    destruct (json_of_list l); [done|].
    intros [= <-]. constructor; [done|]. by apply IH.
Qed.

(** Every record that [analyze_packet] builds for a TCP frame holds scapy's
    flags object, which the JSON encoder rejects. *)
Lemma analyze_packet_tcp_not_serializable now packet ip tcp :
  get_IP (pkt_layers packet) = Some ip →
  get_TCP (pkt_layers packet) = Some tcp →
  json_of_dict (NetworkSniffer.analyze_packet now packet)
  = inl (mkException "TypeError"
           "Object of type FlagValue is not JSON serializable").
Proof.
  intros Hip Htcp. unfold NetworkSniffer.analyze_packet.
  rewrite Hip, Htcp. destruct ip as [[src dst] proto], tcp as [[sport dport] flags].
  destruct (get_Raw (pkt_layers packet)), (get_Ether (pkt_layers packet)) as [[??]|];
    reflexivity.
Qed.

(** The records of the demo sniffer hold strings, integers and [None] only. *)
Lemma generate_demo_packet_serializable now draws :
  ∃ o, json_of_dict (DemoNetworkSniffer.generate_demo_packet now draws) = inr o.
Proof.
  unfold DemoNetworkSniffer.generate_demo_packet.
  destruct (DemoNetworkSniffer.draw_protocol draws); simpl; eauto.
Qed.

Lemma json_of_list_elem_fails (l : list PacketInfo) (d : PacketInfo) e :
  d ∈ l → json_of_dict d = inl e → ∃ e', json_of_list l = inl e'.
Proof.
  induction l as [|d' l IH]; intros Hin Hd.
  - by apply elem_of_nil in Hin.
  - simpl. destruct (json_of_dict d') eqn:Hd'; [eauto|].
    apply elem_of_cons in Hin as [->|Hin]; [congruence|].
    destruct (IH Hin Hd) as [e' ->]. eauto.
Qed.

(** So the export of a history that holds the record of a TCP frame returns
    [False] although the file can be opened. *)
Lemma export_packets_with_tcp_record filename self w now packet ip tcp :
  filename ∉ unopenable w →
  get_IP (pkt_layers packet) = Some ip →
  get_TCP (pkt_layers packet) = Some tcp →
  NetworkSniffer.analyze_packet now packet ∈ packets self →
  (NetworkSniffer.export_packets filename self w).1 = inr (false, self).
Proof.
  intros Hopen Hip Htcp Hin.
  destruct (json_of_list_elem_fails (packets self) _ _ Hin
              (analyze_packet_tcp_not_serializable now packet ip tcp Hip Htcp))
    as [e He].
  rewrite (export_packets_dump_fails filename self w e); [done..|].
  unfold json_dump. by rewrite He.
Qed.

(** The demo class has the same accessors and the same export. *)
Lemma demo_methods_agree :
  DemoNetworkSniffer.export_packets = NetworkSniffer.export_packets
  ∧ DemoNetworkSniffer.get_recent_packets = NetworkSniffer.get_recent_packets
  ∧ DemoNetworkSniffer.clear_packets = NetworkSniffer.clear_packets
  ∧ DemoNetworkSniffer.stop_capture = NetworkSniffer.stop_capture.
Proof. done. Qed.

(** C10. Exporting the history of a sniffer that captured one TCP frame to a
    file that can be opened and written returns [False], prints the encoder's
    error and leaves the file incomplete, where the complete history should
    have been written and [True] returned; the same export of a demo record
    succeeds. The sniffer itself is unchanged in both. *)
Theorem export_packets_tcp_record_fails :
  let r := NetworkSniffer.export_packets "packets.json" one_tcp_record empty_world in
  let d := DemoNetworkSniffer.export_packets "packets.json" one_demo_record empty_world in
  ("packets.json" ∉ unopenable empty_world)
  ∧ ("packets.json" ∉ unwritable empty_world)
  ∧ length (packets one_tcp_record) = 1
  ∧ r.1 = inr (false, one_tcp_record)
  ∧ files r.2 !! "packets.json" = Some Incomplete
  ∧ printed r = ["Export error: Object of type FlagValue is not JSON serializable"]
  ∧ d.1 = inr (true, one_demo_record)
  ∧ (∃ doc, files d.2 !! "packets.json" = Some (Complete doc) ∧ length doc = 1).
Proof.
  split_and!; try set_solver; by vm_compute.
Qed.

(** ** Dictionaries *)

Section DictFacts.
Context {K V : Type} `{EqDecision K}.
Implicit Types (d : list (K * V)) (k : K) (v : V).

Lemma dict_get_None d k : dict_get d k = None ↔ k ∉ d.*1.
Proof.
  induction d as [|[k' v'] d IH]; simpl.
  - split; [intros _; apply not_elem_of_nil | done].
  - rewrite not_elem_of_cons. case_decide as Hk.
    + split; [done|]. by intros [? _].
    + rewrite IH. split; [intros; split; [congruence|done] | by intros [_ ?]].
Qed.

Lemma dict_get_elem_of d k v : NoDup d.*1 → (k, v) ∈ d → dict_get d k = Some v.
Proof.
  induction d as [|[k' v'] d IH]; simpl; intros Hnd Hin.
  - by apply elem_of_nil in Hin.
  - apply NoDup_cons in Hnd as [Hk' Hnd].
    apply elem_of_cons in Hin as [[= -> ->]|Hin].
    + by rewrite decide_True.
    + rewrite decide_False; [by apply IH|].
      intros ->. apply Hk'. apply list_elem_of_fmap. by exists (k, v).
Qed.

Lemma dict_set_fresh d k v : k ∉ d.*1 → dict_set d k v = d ++ [(k, v)].
Proof.
  induction d as [|[k' v'] d IH]; simpl; [done|].
  rewrite not_elem_of_cons. intros [Hne Hk].
  rewrite decide_False by done. by rewrite IH.
Qed.

Lemma dict_set_keys_elem_of d k v : k ∈ d.*1 → (dict_set d k v).*1 = d.*1.
Proof.
  induction d as [|[k' v'] d IH]; simpl; intros Hin.
  - by apply elem_of_nil in Hin.
  - case_decide; simpl; [done|]. f_equal. apply IH.
    apply elem_of_cons in Hin as [->|?]; done.
Qed.

Lemma dict_set_keys d k v :
  (dict_set d k v).*1 = if decide (k ∈ d.*1) then d.*1 else d.*1 ++ [k].
Proof.
  case_decide.
  - by apply dict_set_keys_elem_of.
  - rewrite dict_set_fresh by done. by rewrite fmap_app.
Qed.

Lemma dict_get_set d k v k' :
  dict_get (dict_set d k v) k' = if decide (k = k') then Some v else dict_get d k'.
Proof.
  induction d as [|[k0 v0] d IH]; simpl.
  - done.
  - destruct (decide (k0 = k)) as [->|Hne]; simpl.
    + by case_decide.
    + rewrite IH. repeat case_decide; congruence.
Qed.

(** Building a dictionary from items with distinct keys keeps the items. *)
Lemma dict_of_items_NoDup (items : list (K * V)) :
  NoDup items.*1 → dict_of_items items = items.
Proof.
  unfold dict_of_items.
  enough (∀ acc, NoDup (acc ++ items).*1 →
            foldl (λ d kv, dict_set d kv.1 kv.2) acc items = acc ++ items)
    as Hgen by (intros; by apply (Hgen [])).
  induction items as [|[k v] items IH]; intros acc Hnd; simpl.
  - by rewrite app_nil_r.
  - rewrite dict_set_fresh.
    + rewrite IH; rewrite <- app_assoc; done.
    + rewrite fmap_app in Hnd. apply NoDup_app in Hnd as (_ & Hdisj & _).
      intros Hin. apply (Hdisj k Hin). simpl. left.
Qed.
End DictFacts.

(** ** Counting keys *)

Section Counting.
Context {K : Type} `{EqDecision K}.
Implicit Types (obs : list K) (k : K).

Lemma count_keys_snoc obs k :
  count_keys (obs ++ [k]) = count_key (count_keys obs) k.
Proof. unfold count_keys. by rewrite foldl_snoc. Qed.

Lemma count_keys_keys_snoc obs k :
  (count_keys (obs ++ [k])).*1 =
    if decide (k ∈ (count_keys obs).*1)
    then (count_keys obs).*1 else (count_keys obs).*1 ++ [k].
Proof. rewrite count_keys_snoc. apply dict_set_keys. Qed.

(** The keys of the table are the keys observed. *)
Lemma count_keys_elem_of obs k : k ∈ (count_keys obs).*1 ↔ k ∈ obs.
Proof.
  induction obs as [|x obs IH] using rev_ind; [done|].
  rewrite count_keys_keys_snoc, elem_of_app, list_elem_of_singleton.
  case_decide as Hx.
  - rewrite IH. split; [auto|]. intros [?| ->]; [done|]. by apply IH.
  - by rewrite elem_of_app, list_elem_of_singleton, IH.
Qed.

Lemma count_keys_NoDup obs : NoDup (count_keys obs).*1.
Proof.
  induction obs as [|x obs IH] using rev_ind; [constructor|].
  rewrite count_keys_keys_snoc. case_decide as Hx; [done|].
  apply NoDup_app. split_and!; [done| |apply NoDup_singleton].
  intros y Hy ->%list_elem_of_singleton. done.
Qed.

(** Each key is counted as often as it was observed. *)
Lemma count_keys_get obs k :
  dict_get_default (count_keys obs) k 0%Z = occurrences k obs.
Proof.
  induction obs as [|x obs IH] using rev_ind; [done|].
  rewrite count_keys_snoc. unfold count_key, dict_get_default in *.
  rewrite dict_get_set. unfold occurrences in *.
  rewrite filter_app, filter_cons, filter_nil. unfold len in *.
  rewrite length_app. case_decide as Hx; simpl.
  - subst x. rewrite IH. simpl. lia.
  - rewrite IH. simpl. lia.
Qed.

Lemma count_keys_entry obs k c :
  (k, c) ∈ count_keys obs → k ∈ obs ∧ c = occurrences k obs.
Proof.
  intros Hin. split.
  - apply count_keys_elem_of. apply list_elem_of_fmap. by exists (k, c).
  - rewrite <- count_keys_get. unfold dict_get_default.
    by rewrite (dict_get_elem_of _ _ c (count_keys_NoDup obs) Hin).
Qed.

(** The keys stand in the table in the order of their first observation. *)
Lemma count_keys_order obs k1 k2 :
  [k1; k2] `sublist_of` (count_keys obs).*1 → seen_before k1 k2 obs.
Proof.
  induction obs as [|x obs IH] using rev_ind.
  { intros Hsub. by apply sublist_nil_r in Hsub. }
  assert (Hext : seen_before k1 k2 obs → seen_before k1 k2 (obs ++ [x])).
  { intros (pre & post & -> & Hpre & Hne).
    exists pre, (post ++ [x]). by rewrite <- app_assoc. }
  rewrite count_keys_keys_snoc. case_decide as Hx; [by auto|].
  intros (l1 & l2 & Heq & Hl1 & Hl2)%sublist_app_r.
  apply sublist_cons_r in Hl2 as [Hl2|(l' & -> & Hl')].
  - apply sublist_nil_r in Hl2 as ->. rewrite app_nil_r in Heq. subst l1. auto.
  - apply sublist_nil_r in Hl' as ->.
    destruct l1 as [|a [|b l1]]; simpl in Heq; [done| |by destruct l1].
    injection Heq as <- <-.
    assert (Hk1 : k1 ∈ obs).
    { apply count_keys_elem_of. eapply elem_of_sublist; [|done]. left. }
    assert (Hk2 : k2 ∉ obs) by (by rewrite <- count_keys_elem_of).
    apply list_elem_of_split in Hk1 as (pre & post & ->).
    exists pre, (post ++ [k2]). split_and!.
    + by rewrite <- app_assoc.
    + intros Hin. apply Hk2. apply elem_of_app. by left.
    + intros ->. apply Hk2. apply elem_of_app. right. left.
Qed.
End Counting.

(** ** Sorting by count *)

Section Sorting.
Context {K : Type}.
Implicit Types (x : K * Z) (l : list (K * Z)).

Lemma insert_by_count_perm x l : insert_by_count x l ≡ₚ x :: l.
Proof.
  induction l as [|y l IH]; simpl; [done|].
  destruct (x.2 <? y.2)%Z; [|done].
  rewrite IH. apply Permutation_swap.
Qed.

Lemma sorted_by_count_perm l : sorted_by_count l ≡ₚ l.
Proof.
  induction l as [|x l IH]; simpl; [done|].
  by rewrite insert_by_count_perm, IH.
Qed.

Lemma insert_by_count_descending x l :
  descending l → descending (insert_by_count x l).
Proof.
  unfold descending. induction l as [|y l IH]; simpl; intros Hs.
  - repeat constructor.
  - apply StronglySorted_inv in Hs as [Hs Hy].
    destruct (Z.ltb_spec x.2 y.2) as [Hlt|Hge].
    + constructor; [by apply IH|].
      rewrite insert_by_count_perm. constructor; [lia|done].
    + constructor; [by constructor|].
      constructor; [done|].
      eapply Forall_impl; [exact Hy|]. simpl. intros z Hz. lia.
Qed.

Lemma sorted_by_count_descending l : descending (sorted_by_count l).
Proof.
  induction l as [|x l IH]; simpl; [constructor|].
  by apply insert_by_count_descending.
Qed.

(** The sort is stable: entries of one count keep their order. *)
Lemma insert_by_count_filter (c : Z) x l :
  filter (λ e, e.2 = c) (insert_by_count x l) = filter (λ e, e.2 = c) (x :: l).
Proof.
  induction l as [|y l IH]; simpl; [done|].
  destruct (Z.ltb_spec x.2 y.2) as [Hlt|Hge]; [|done].
  rewrite (filter_cons _ y), IH, !filter_cons.
  repeat case_decide; try done; lia.
Qed.

Lemma sorted_by_count_stable (c : Z) l :
  filter (λ e, e.2 = c) (sorted_by_count l) = filter (λ e, e.2 = c) l.
Proof.
  induction l as [|x l IH]; simpl; [done|].
  by rewrite insert_by_count_filter, !filter_cons, IH.
Qed.
End Sorting.

(** ** Sublists *)

Lemma sublist_filter_mono {A} (P : A → Prop) `{!∀ x, Decision (P x)}
    (l1 l2 : list A) :
  l1 `sublist_of` l2 → filter P l1 `sublist_of` filter P l2.
Proof.
  induction 1 as [|x l1 l2 _ IH|x l1 l2 _ IH]; [done| |].
  - rewrite !filter_cons. case_decide; [by constructor|done].
  - rewrite filter_cons. case_decide; [by constructor|done].
Qed.

Lemma descending_sublist {K} (t1 t2 : list (K * Z)) :
  t1 `sublist_of` t2 → descending t2 → descending t1.
Proof.
  unfold descending.
  induction 1 as [|x l1 l2 Hsub IH|x l1 l2 Hsub IH]; intros Hs; [done| |].
  - apply StronglySorted_inv in Hs as [Hs Hx].
    constructor; [by apply IH|].
    rewrite Forall_forall in Hx |- *.
    intros y Hy. apply Hx. by eapply elem_of_sublist.
  - apply StronglySorted_inv in Hs as [Hs _]. by apply IH.
Qed.

(** ** The ten most frequent keys *)

Section Top10.
Context {K : Type} `{EqDecision K}.
Implicit Types (obs : list K).

(** [dict(...)] changes nothing: the keys of the sorted items are distinct. *)
Lemma top10_take obs :
  top10 (count_keys obs) = take 10 (sorted_by_count (count_keys obs)).
Proof.
  unfold top10, slice_to. apply dict_of_items_NoDup.
  eapply sublist_NoDup; [|apply fmap_sublist, sublist_take].
  rewrite sorted_by_count_perm. apply count_keys_NoDup.
Qed.

Lemma top10_sublist obs :
  top10 (count_keys obs) `sublist_of` sorted_by_count (count_keys obs).
Proof. rewrite top10_take. apply sublist_take. Qed.

Lemma top10_spec obs :
  let t := top10 (count_keys obs) in
  length t ≤ 10
  ∧ descending t
  ∧ ties_first_seen obs t
  ∧ ∀ k c, (k, c) ∈ t → k ∈ obs ∧ c = occurrences k obs.
Proof.
  intros t. split_and!.
  - unfold t. rewrite top10_take, length_take. lia.
  - eapply descending_sublist; [apply top10_sublist|].
    apply sorted_by_count_descending.
  - intros k1 k2 c Hsub.
    apply count_keys_order.
    change [k1; k2] with ([(k1, c); (k2, c)].*1).
    apply fmap_sublist.
    assert (Hs : [(k1, c); (k2, c)]
                   `sublist_of` sorted_by_count (count_keys obs)).
    { etrans; [exact Hsub|apply top10_sublist]. }
    apply (sublist_filter_mono (λ e, e.2 = c)) in Hs.
    rewrite sorted_by_count_stable in Hs.
    rewrite !filter_cons, filter_nil in Hs. simpl in Hs.
    rewrite !decide_True in Hs by done.
    etrans; [exact Hs|apply sublist_filter].
  - intros k c Hin. apply count_keys_entry.
    rewrite <- sorted_by_count_perm.
    eapply elem_of_sublist; [exact Hin|apply top10_sublist].
Qed.
End Top10.

(** ** The statistics of a history *)

Lemma seen_before_filter {A} (Q : A → Prop) `{!∀ x, Decision (Q x)}
    (k1 k2 : A) (l : list A) :
  Q k2 → seen_before k1 k2 (filter Q l) → seen_before k1 k2 l.
Proof.
  intros HQ (pre & post & Heq & Hpre & Hne).
  revert pre Heq Hpre. induction l as [|x l IH]; intros pre Heq Hpre.
  { by destruct pre. }
  rewrite filter_cons in Heq. destruct (decide (Q x)) as [Hx|Hx].
  - destruct pre as [|a pre]; simpl in Heq; injection Heq as -> Heq.
    + exists [], l. split_and!; [done|apply not_elem_of_nil|done].
    + apply not_elem_of_cons in Hpre as [Hk2 Hpre].
      destruct (IH pre Heq Hpre) as (p & q & -> & Hp & _).
      exists (a :: p), q. split_and!; [done| |done].
      by apply not_elem_of_cons.
  - destruct (IH pre Heq Hpre) as (p & q & -> & Hp & _).
    exists (x :: p), q. split_and!; [done| |done].
    apply not_elem_of_cons. split; [|done]. by intros ->.
Qed.

Lemma occurrences_filter {A} `{EqDecision A} (Q : A → Prop)
    `{!∀ x, Decision (Q x)} (k : A) (l : list A) :
  Q k → occurrences k (filter Q l) = occurrences k l.
Proof.
  intros HQ. unfold occurrences. f_equal.
  induction l as [|x l IH]; [done|].
  rewrite (filter_cons Q). destruct (decide (Q x)) as [Hx|Hx].
  - rewrite !(filter_cons (λ y, y = k)). case_decide; by rewrite IH.
  - rewrite (filter_cons (λ y, y = k)), decide_False; [done|].
    by intros ->.
Qed.

(** The loop of [get_packet_stats] counts three sequences of keys. *)
Lemma stats_fold (history : list PacketInfo) : ∀ protocols ips ports,
  foldl NetworkSniffer.stats_step (protocols, ips, ports) history
  = (foldl count_key protocols (protocol_of <$> history),
     foldl count_key ips (observed_ips history),
     foldl count_key ports (observed_ports history)).
Proof.
  induction history as [|p history IH]; intros protocols ips ports; [done|].
  simpl. rewrite IH. unfold observed_ips, observed_ports.
  rewrite !fmap_cons, !filter_cons.
  fold (src_ip_of p) (src_port_of p) (protocol_of p).
  destruct (decide (src_ip_of p ≠ VStr "Unknown")),
           (truthy (src_port_of p)) eqn:Hport;
    simpl; rewrite ?decide_True, ?decide_False by done; done.
Qed.

Lemma get_packet_stats_nonempty (self : Sniffer) :
  packets self ≠ [] →
  NetworkSniffer.get_packet_stats self
  = [ ("total_packets", SInt (len (packets self)));
      ("protocols", SDict (count_keys (protocol_of <$> packets self)));
      ("top_ips", SDict (top10 (count_keys (observed_ips (packets self)))));
      ("top_ports", SDict (top10 (count_keys (observed_ports (packets self))))) ].
Proof.
  intros Hne. unfold NetworkSniffer.get_packet_stats.
  destruct (packets self) as [|p history] eqn:E; [done|].
  by rewrite stats_fold.
Qed.

(** C4. In the statistics of any history, [top_ips] and [top_ports] have at
    most 10 entries, are sorted by count, largest first, and keep entries of
    equal count in the order in which their keys first occur in the history.
    No key of [top_ips] is "Unknown" and no key of [top_ports] is [None];
    each key is the source address (source port) of a stored record and is
    counted as often as it occurs. *)
Theorem top_tables_spec (self : Sniffer) (top_ips top_ports : list (PyVal * Z)) :
  dict_get (NetworkSniffer.get_packet_stats self) "top_ips" = Some (SDict top_ips) →
  dict_get (NetworkSniffer.get_packet_stats self) "top_ports" = Some (SDict top_ports) →
  let ips := src_ip_of <$> packets self in
  let ports := src_port_of <$> packets self in
  (length top_ips ≤ 10 ∧ length top_ports ≤ 10)
  ∧ (descending top_ips ∧ descending top_ports)
  ∧ (ties_first_seen ips top_ips ∧ ties_first_seen ports top_ports)
  ∧ (∀ k c, (k, c) ∈ top_ips →
       k ≠ VStr "Unknown" ∧ k ∈ ips ∧ c = occurrences k ips)
  ∧ (∀ k c, (k, c) ∈ top_ports →
       k ≠ VNone ∧ k ∈ ports ∧ c = occurrences k ports).
Proof.
  intros Hips Hports ips ports.
  assert (Hne : packets self ≠ []).
  { intros E. unfold NetworkSniffer.get_packet_stats in Hips.
    by rewrite E in Hips. }
  rewrite get_packet_stats_nonempty in Hips, Hports by done.
  injection Hips as <-. injection Hports as <-.
  destruct (top10_spec (observed_ips (packets self)))
    as (Hlen1 & Hdesc1 & Hties1 & Hent1).
  destruct (top10_spec (observed_ports (packets self)))
    as (Hlen2 & Hdesc2 & Hties2 & Hent2).
  assert (Hip : ∀ k c, (k, c) ∈ top10 (count_keys (observed_ips (packets self))) →
            k ≠ VStr "Unknown" ∧ k ∈ ips ∧ c = occurrences k ips).
  { intros k c [Hk ->]%Hent1. unfold observed_ips in *.
    apply list_elem_of_filter in Hk as [Hk Hin].
    by rewrite occurrences_filter. }
  assert (Hpo : ∀ k c, (k, c) ∈ top10 (count_keys (observed_ports (packets self))) →
            truthy k = true ∧ k ∈ ports ∧ c = occurrences k ports).
  { intros k c [Hk ->]%Hent2. unfold observed_ports in *.
    apply list_elem_of_filter in Hk as [Hk Hin].
    by rewrite occurrences_filter. }
  split_and!; try done.
  - intros k1 k2 c Hsub.
    eapply (seen_before_filter (λ v, v ≠ VStr "Unknown")); [|exact (Hties1 k1 k2 c Hsub)].
    destruct (Hip k2 c) as [Hk2 _]; [|exact Hk2].
    eapply elem_of_sublist; [|exact Hsub]. right. left.
  - intros k1 k2 c Hsub.
    eapply (seen_before_filter (λ v, truthy v = true)); [|exact (Hties2 k1 k2 c Hsub)].
    destruct (Hpo k2 c) as [Hk2 _]; [|exact Hk2].
    eapply elem_of_sublist; [|exact Hsub]. right. left.
  - intros k c (Ht & Hin & Hc)%Hpo. split_and!; [|done..].
    by intros ->.
Qed.

Lemma top_tables_spec_witness :
  let top_ips := [(VStr "192.168.1.2", 3%Z); (VStr "192.168.1.1", 2%Z);
                  (VStr "192.168.1.3", 1%Z)] in
  let top_ports := [(VInt 5001, 2%Z); (VInt 5002, 2%Z); (VInt 5003, 1%Z)] in
  dict_get (NetworkSniffer.get_packet_stats mixed_history) "top_ips"
    = Some (SDict top_ips)
  ∧ dict_get (NetworkSniffer.get_packet_stats mixed_history) "top_ports"
    = Some (SDict top_ports)
  ∧ descending top_ips
  ∧ ties_first_seen (src_port_of <$> packets mixed_history) top_ports.
Proof.
  intros top_ips top_ports.
  assert (Hips : dict_get (NetworkSniffer.get_packet_stats mixed_history) "top_ips"
                 = Some (SDict top_ips)) by (by vm_compute).
  assert (Hports : dict_get (NetworkSniffer.get_packet_stats mixed_history) "top_ports"
                   = Some (SDict top_ports)) by (by vm_compute).
  pose proof (top_tables_spec mixed_history top_ips top_ports Hips Hports) as H.
  exact (conj Hips (conj Hports
           (conj (proj1 (proj1 (proj2 H))) (proj2 (proj1 (proj2 (proj2 H))))))).
Defined.

(** * Further properties of the capture pipeline *)

(** ** Queue, counter and history along a capture *)

Lemma callbacks_snoc frames now packet self :
  callbacks (frames ++ [(now, packet)]) self
  = NetworkSniffer.packet_callback now packet (callbacks frames self).
Proof. unfold callbacks. by rewrite foldl_snoc. Qed.

Lemma callbacks_queue_and_count_aux frames self :
  is_capturing self = true →
  packet_queue (callbacks frames self) = packet_queue self ++ records frames
  ∧ is_capturing (callbacks frames self) = true.
Proof.
  intros Hcap. induction frames as [|[now packet] frames IH] using rev_ind.
  - simpl. by rewrite app_nil_r.
  - destruct IH as [Hq Hcap']. rewrite callbacks_snoc.
    destruct (packet_callback_capturing now packet _ Hcap') as (_ & -> & _ & ->).
    unfold records in *. by rewrite fmap_app, Hq, <- app_assoc.
Qed.

(** X1. While the sniffer is capturing, every delivered frame is put in the
    queue, in order and without any eviction, and counted once; the flag, the
    interface, the filter and the thread are not touched. *)
Theorem callbacks_queue_and_count (frames : list (string * Packet)) (self : Sniffer) :
  is_capturing self = true →
  let self' := callbacks frames self in
  packet_queue self' = packet_queue self ++ records frames
  ∧ packet_count self' = (packet_count self + len frames)%Z
  ∧ is_capturing self' = true
  ∧ interface self' = interface self
  ∧ filter_ self' = filter_ self
  ∧ capture_thread self' = capture_thread self.
Proof.
  intros Hcap. induction frames as [|[now packet] frames IH] using rev_ind.
  - simpl. rewrite app_nil_r. unfold len. simpl. split_and!; [done|lia|done..].
  - destruct IH as (Hq & Hc & Hcap' & Hi & Hf & Ht). intros self'.
    unfold self'. rewrite callbacks_snoc.
    unfold NetworkSniffer.packet_callback at 1 2 3 4 5 6.
    rewrite Hcap'. simpl.
    assert (Hrec : records (frames ++ [(now, packet)])
                   = records frames ++ [NetworkSniffer.analyze_packet now packet]).
    { unfold records. by rewrite fmap_app. }
    assert (Hlen : len (frames ++ [(now, packet)]) = (len frames + 1)%Z).
    { unfold len. rewrite length_app. simpl. lia. }
    destruct (len _ >? 1000)%Z; simpl;
      rewrite Hq, Hc, Hrec, Hlen, <- app_assoc; split_and!; (done || lia).
Qed.

Lemma callbacks_queue_and_count_witness :
  packet_count (callbacks scenario_frames capturing) = 1005%Z
  ∧ length (packet_queue (callbacks scenario_frames capturing)) = 1005.
Proof.
  destruct (callbacks_queue_and_count scenario_frames capturing eq_refl)
    as (Hq & Hc & _).
  split.
  - rewrite Hc. reflexivity.
  - rewrite Hq. unfold records. rewrite length_app, length_fmap. reflexivity.
Defined.

(** X2. In every state a sniffer reaches from its creation through callbacks,
    starts, stops and clears, the history is a suffix of the queue, holds at
    most 1000 records, and the packet count lies between 0 and the number of
    records queued. *)
Theorem run_invariant (ops : list Op) :
  let self := run ops NetworkSniffer.__init__ in
  packets self `suffix_of` packet_queue self
  ∧ length (packets self) ≤ 1000
  ∧ (0 ≤ packet_count self ≤ len (packet_queue self))%Z.
Proof.
  unfold run. induction ops as [|op ops IH] using rev_ind.
  { simpl. unfold len. simpl. split_and!; [done|lia..]. }
  rewrite foldl_snoc. set (self := foldl step NetworkSniffer.__init__ ops) in *.
  destruct IH as ([k Hk] & Hlen & Hc).
  destruct op as [now packet|iface filter_str| |]; simpl.
  - destruct (is_capturing self) eqn:Hcap.
    + destruct (packet_callback_capturing now packet self Hcap)
        as (-> & -> & -> & _).
      unfold len in *. rewrite !length_app in *. simpl.
      split_and!; [|case_decide; rewrite ?length_drop, ?length_app; simpl; lia|lia..].
      rewrite Hk, <- app_assoc.
      case_decide.
      * exists (k ++ take 1 (packets self ++ [NetworkSniffer.analyze_packet now packet])).
        by rewrite <- app_assoc, take_drop.
      * by exists k.
    + unfold NetworkSniffer.packet_callback. rewrite Hcap. simpl.
      split_and!; [by exists k|done|lia..].
  - unfold NetworkSniffer.start_capture. destruct (is_capturing self); simpl.
    + split_and!; [by exists k|done|lia..].
    + unfold len in *. split_and!; [by exists k|done|lia..].
  - split_and!; [by exists k|done|lia..].
  - unfold len in *. split_and!; [by exists (packet_queue self); rewrite app_nil_r|lia..].
Qed.

(** ** The capture thread *)

Lemma deliver_callbacks frames : ∀ self,
  is_capturing self = true →
  NetworkSniffer.deliver frames self = callbacks frames self.
Proof.
  induction frames as [|[now packet] frames IH]; intros self Hcap; [done|].
  destruct (packet_callback_capturing now packet self Hcap) as (_ & _ & _ & Hc).
  simpl. rewrite Hc. simpl. by apply IH.
Qed.

(** X3. The thread started on a capturing sniffer hands every frame that
    [sniff] delivers to the callback. If [sniff] returns, nothing is printed;
    if it fails after some frames, the records of these frames are kept, the
    error is printed, and the sniffer is still marked capturing: only
    [stop_capture] clears the flag. In neither case is a file touched. *)
Theorem capture_packets_run (frames : list (string * Packet))
    (ending : option Exception) (self : Sniffer) (w : World) :
  is_capturing self = true →
  let r := NetworkSniffer.capture_packets (Delivers frames ending) self w in
  r.1 = inr (callbacks frames self)
  ∧ is_capturing (callbacks frames self) = true
  ∧ packet_queue (callbacks frames self) = packet_queue self ++ records frames
  ∧ files r.2 = files w
  ∧ stdout r.2 = stdout w ++ match ending with
                             | Some e => ["Capture error: " +:+ exc_msg e]
                             | None => []
                             end.
Proof.
  intros Hcap.
  destruct (callbacks_queue_and_count_aux frames self Hcap) as (Hq & Hcap').
  unfold NetworkSniffer.capture_packets, NetworkSniffer.sniff.
  rewrite deliver_callbacks by done.
  destruct ending as [e|]; simpl; by rewrite ?app_nil_r.
Qed.

Lemma capture_packets_run_witness :
  let r := NetworkSniffer.capture_packets
             (Delivers scenario_frames (Some no_such_device)) capturing empty_world in
  r.1 = inr (callbacks scenario_frames capturing)
  ∧ stdout r.2 = ["Capture error: No such device: nonexistent0"].
Proof.
  destruct (capture_packets_run scenario_frames (Some no_such_device)
              capturing empty_world eq_refl) as (H1 & _ & _ & _ & H2).
  exact (conj H1 H2).
Defined.

(** ** More on the statistics *)

Section Totals.
Context {K : Type} `{EqDecision K}.
Implicit Types (d : list (K * Z)) (obs : list K).

Lemma total_app d1 d2 : total (d1 ++ d2) = (total d1 + total d2)%Z.
Proof. induction d1 as [|x d1 IH]; simpl; [done|]. rewrite IH. lia. Qed.

Lemma total_dict_set d k v :
  total (dict_set d k v) = (total d - dict_get_default d k 0 + v)%Z.
Proof.
  unfold dict_get_default. induction d as [|[k' v'] d IH]; simpl; [lia|].
  case_decide; simpl; [lia|]. rewrite IH. lia.
Qed.

Lemma total_count_keys obs : total (count_keys obs) = len obs.
Proof.
  induction obs as [|x obs IH] using rev_ind; [done|].
  rewrite count_keys_snoc. unfold count_key. rewrite total_dict_set, IH.
  unfold len. rewrite length_app. simpl. lia.
Qed.

Lemma count_keys_positive obs k c : (k, c) ∈ count_keys obs → (1 ≤ c)%Z.
Proof.
  intros [Hk ->]%count_keys_entry.
  apply list_elem_of_split in Hk as (l1 & l2 & ->).
  unfold occurrences, len.
  rewrite filter_app, filter_cons, decide_True, length_app by done.
  simpl. lia.
Qed.

(** A key left out of the ten has at most the count of each key kept. *)
Lemma top10_largest obs k :
  k ∈ obs → k ∉ (top10 (count_keys obs)).*1 →
  length (top10 (count_keys obs)) = 10
  ∧ ∀ k' c', (k', c') ∈ top10 (count_keys obs) → (occurrences k obs ≤ c')%Z.
Proof.
  intros Hk Hout. rewrite top10_take in *.
  set (s := sorted_by_count (count_keys obs)) in *.
  assert (Hin : (k, occurrences k obs) ∈ s).
  { unfold s. rewrite sorted_by_count_perm.
    apply count_keys_elem_of, list_elem_of_fmap in Hk as ([k0 c] & -> & Hin).
    simpl. by destruct (count_keys_entry _ _ _ Hin) as [_ <-]. }
  rewrite <- (take_drop 10 s) in Hin. apply elem_of_app in Hin as [Hin|Hin].
  { exfalso. apply Hout. apply list_elem_of_fmap. by exists (k, occurrences k obs). }
  split.
  - apply length_take_le.
    destruct (decide (10 ≤ length s)); [done|].
    rewrite drop_ge in Hin by lia. by apply elem_of_nil in Hin.
  - intros k' c' Hin'.
    pose proof (sorted_by_count_descending (count_keys obs)) as Hs.
    fold s in Hs. unfold descending in Hs. rewrite <- (take_drop 10 s) in Hs.
    exact (StronglySorted_app_1_elem_of _ _ _ _ _ Hs Hin' Hin).
Qed.

(** With at most ten distinct keys, every key observed is in the table. *)
Lemma top10_all obs :
  length (count_keys obs) ≤ 10 → top10 (count_keys obs) ≡ₚ count_keys obs.
Proof.
  intros Hlen. rewrite top10_take, take_ge.
  - apply sorted_by_count_perm.
  - by rewrite sorted_by_count_perm.
Qed.
End Totals.

(** X4. The [protocols] table of the statistics has one entry for each
    protocol value that occurs in the history, counts each as often as it
    occurs (so no count is below 1), and its counts add up to
    [total_packets], the number of records in the history. *)
Theorem protocols_table_spec (self : Sniffer) (protocols : list (PyVal * Z)) :
  dict_get (NetworkSniffer.get_packet_stats self) "protocols"
    = Some (SDict protocols) →
  let seen := protocol_of <$> packets self in
  dict_get (NetworkSniffer.get_packet_stats self) "total_packets"
    = Some (SInt (len (packets self)))
  ∧ NoDup protocols.*1
  ∧ (∀ p, p ∈ protocols.*1 ↔ p ∈ seen)
  ∧ (∀ p, dict_get_default protocols p 0%Z = occurrences p seen)
  ∧ (∀ p c, (p, c) ∈ protocols → (1 ≤ c)%Z)
  ∧ total protocols = len (packets self).
Proof.
  intros Hp seen.
  assert (Hne : packets self ≠ []).
  { intros E. unfold NetworkSniffer.get_packet_stats in Hp. by rewrite E in Hp. }
  rewrite get_packet_stats_nonempty in * by done.
  injection Hp as <-. split_and!.
  - done.
  - apply count_keys_NoDup.
  - apply count_keys_elem_of.
  - apply count_keys_get.
  - apply count_keys_positive.
  - rewrite total_count_keys. unfold seen, len. by rewrite length_fmap.
Qed.

Lemma protocols_table_spec_witness :
  total [(VStr "UDP", 6%Z); (VStr "Unknown", 1%Z)] = len (packets mixed_history).
Proof.
  exact (proj2 (proj2 (proj2 (proj2 (proj2
    (protocols_table_spec mixed_history
       [(VStr "UDP", 6%Z); (VStr "Unknown", 1%Z)] eq_refl)))))).
Defined.

(** The two top tables of a non-empty history. *)
Lemma top_tables_eq (self : Sniffer) (top_ips top_ports : list (PyVal * Z)) :
  dict_get (NetworkSniffer.get_packet_stats self) "top_ips" = Some (SDict top_ips) →
  dict_get (NetworkSniffer.get_packet_stats self) "top_ports" = Some (SDict top_ports) →
  top_ips = top10 (count_keys (observed_ips (packets self)))
  ∧ top_ports = top10 (count_keys (observed_ports (packets self))).
Proof.
  intros Hips Hports.
  assert (Hne : packets self ≠ []).
  { intros E. unfold NetworkSniffer.get_packet_stats in Hips. by rewrite E in Hips. }
  rewrite get_packet_stats_nonempty in Hips, Hports by done.
  injection Hips as <-. by injection Hports as <-.
Qed.

(** X5. The top tables hold the most frequent keys: a source address (other
    than "Unknown") or a true source port of the history that is missing from
    its table is missing because the table is full, and it occurs at most as
    often as every key in the table. *)
Theorem top_tables_are_largest (self : Sniffer) (top_ips top_ports : list (PyVal * Z)) :
  dict_get (NetworkSniffer.get_packet_stats self) "top_ips" = Some (SDict top_ips) →
  dict_get (NetworkSniffer.get_packet_stats self) "top_ports" = Some (SDict top_ports) →
  let ips := src_ip_of <$> packets self in
  let ports := src_port_of <$> packets self in
  (∀ k, k ∈ ips → k ≠ VStr "Unknown" → k ∉ top_ips.*1 →
     length top_ips = 10
     ∧ ∀ k' c', (k', c') ∈ top_ips → (occurrences k ips ≤ c')%Z)
  ∧ (∀ k, k ∈ ports → truthy k = true → k ∉ top_ports.*1 →
     length top_ports = 10
     ∧ ∀ k' c', (k', c') ∈ top_ports → (occurrences k ports ≤ c')%Z).
Proof.
  intros Hips Hports ips ports.
  destruct (top_tables_eq self _ _ Hips Hports) as [-> ->].
  split; intros k Hk HQ Hout.
  - rewrite <- (occurrences_filter (λ v, v ≠ VStr "Unknown")) by done.
    apply top10_largest; [|done]. by apply list_elem_of_filter.
  - rewrite <- (occurrences_filter (λ v, truthy v = true)) by done.
    apply top10_largest; [|done]. by apply list_elem_of_filter.
Qed.

Lemma top_tables_are_largest_witness :
  length (stats_table many_sources "top_ips") = 10
  ∧ ∀ k' c', (k', c') ∈ stats_table many_sources "top_ips" →
      (occurrences (VStr "10.1.0.10") (src_ip_of <$> packets many_sources) ≤ c')%Z.
Proof.
  assert (Hips : dict_get (NetworkSniffer.get_packet_stats many_sources) "top_ips"
                 = Some (SDict (stats_table many_sources "top_ips")))
    by (by vm_compute).
  assert (Hports : dict_get (NetworkSniffer.get_packet_stats many_sources) "top_ports"
                   = Some (SDict (stats_table many_sources "top_ports")))
    by (by vm_compute).
  assert (Hk : VStr "10.1.0.10" ∈ src_ip_of <$> packets many_sources).
  { apply list_elem_of_In. vm_compute. tauto. }
  assert (Hne : VStr "10.1.0.10" ≠ VStr "Unknown") by discriminate.
  assert (Hout : VStr "10.1.0.10" ∉ (stats_table many_sources "top_ips").*1).
  { rewrite list_elem_of_In. vm_compute. intuition discriminate. }
  exact (proj1 (top_tables_are_largest many_sources _ _ Hips Hports)
           (VStr "10.1.0.10") Hk Hne Hout).
Defined.

(** X6. Only true source ports are counted: [top_ports] never lists port 0,
    [None] or an empty string, and it is empty when no record of the history
    has a true source port. *)
Theorem top_ports_skips_false_ports (self : Sniffer) (top_ports : list (PyVal * Z)) :
  dict_get (NetworkSniffer.get_packet_stats self) "top_ports" = Some (SDict top_ports) →
  (∀ k c, (k, c) ∈ top_ports →
     truthy k = true ∧ k ≠ VInt 0 ∧ k ≠ VNone ∧ k ≠ VStr "")
  ∧ ((∀ p, p ∈ packets self → truthy (src_port_of p) = false) → top_ports = []).
Proof.
  intros Hports.
  assert (Hne : packets self ≠ []).
  { intros E. unfold NetworkSniffer.get_packet_stats in Hports. by rewrite E in Hports. }
  rewrite get_packet_stats_nonempty in Hports by done.
  injection Hports as <-. split.
  - intros k c Hin.
    destruct (top10_spec (observed_ports (packets self))) as (_ & _ & _ & Hent).
    apply Hent in Hin as [Hk _]. unfold observed_ports in Hk.
    apply list_elem_of_filter in Hk as [Hk _].
    split_and!; [done|intros ->; done..].
  - intros Hall.
    assert (Hobs : ∀ l, (∀ p, p ∈ l → truthy (src_port_of p) = false) →
                        observed_ports l = []).
    { unfold observed_ports. induction l as [|p l IH]; intros Hl; [done|].
      rewrite fmap_cons, filter_cons, decide_False.
      - apply IH. intros q Hq. apply Hl. by right.
      - rewrite Hl; [done|left]. }
    by rewrite Hobs.
Qed.

Lemma top_ports_skips_false_ports_witness :
  truthy (VInt 5001) = true ∧ VInt 5001 ≠ VInt 0.
Proof.
  assert (Hin : (VInt 5001, 2%Z)
                ∈ [(VInt 5001, 2%Z); (VInt 5002, 2%Z); (VInt 5003, 1%Z)]) by left.
  destruct (proj1 (top_ports_skips_false_ports mixed_history
    [(VInt 5001, 2%Z); (VInt 5002, 2%Z); (VInt 5003, 1%Z)] eq_refl) _ _ Hin)
    as (H1 & H2 & _).
  exact (conj H1 H2).
Defined.

(** ** More on the frame classifier *)

Lemma analyze_packet_base_keys (now : string) (packet : Packet) :
  take 10 (NetworkSniffer.analyze_packet now packet).*1 = base_keys.
Proof. analyze_cases packet; reflexivity. Qed.

(** X7. Every record built by [analyze_packet] starts with the ten base keys
    in their fixed order, has no key twice and, beyond the base keys, only
    keys among [icmp_type], [icmp_code], [src_mac] and [dst_mac]; its
    timestamp, length and summary are those of the frame. *)
Theorem analyze_packet_keys (now : string) (packet : Packet) :
  let r := NetworkSniffer.analyze_packet now packet in
  take 10 r.*1 = base_keys
  ∧ NoDup r.*1
  ∧ drop 10 r.*1 `sublist_of` optional_keys
  ∧ dict_get r "timestamp" = Some (VStr now)
  ∧ dict_get r "length" = Some (VInt (pkt_len packet))
  ∧ dict_get r "summary" = Some (VStr (pkt_summary packet)).
Proof.
  analyze_cases packet; split_and!; try reflexivity.
  all: vm_compute.
  all: try (apply (bool_decide_unpack _); vm_compute; exact I).
  all: repeat first [apply sublist_nil | apply sublist_skip | apply sublist_cons].
Qed.

(** X8. In every record built by [analyze_packet] the transport fields go
    with the protocol: the ports are set exactly when the protocol is TCP or
    UDP, the flags exactly when it is TCP, the ICMP type and code are present
    exactly when it is ICMP, and a payload preview is only ever stored for
    TCP and UDP. *)
Theorem analyze_packet_transport_fields (now : string) (packet : Packet) :
  let r := NetworkSniffer.analyze_packet now packet in
  let transport := protocol_of r = VStr "TCP" ∨ protocol_of r = VStr "UDP" in
  (src_port_of r ≠ VNone ↔ transport)
  ∧ (dict_get_default r "dst_port" VNone ≠ VNone ↔ transport)
  ∧ (dict_get_default r "flags" VNone ≠ VNone ↔ protocol_of r = VStr "TCP")
  ∧ (dict_get r "icmp_type" ≠ None ↔ protocol_of r = VStr "ICMP")
  ∧ (dict_get r "icmp_code" ≠ None ↔ protocol_of r = VStr "ICMP")
  ∧ (dict_get_default r "payload" VNone ≠ VNone → transport).
Proof.
  analyze_cases packet; vm_compute; intuition congruence.
Qed.

(** ** The payload preview *)

Lemma hex_digit_elem_of (n : N) : hex_digit n ∈ hex_digits.
Proof.
  apply list_elem_of_In.
  destruct n as [|p]; [vm_compute; tauto|].
  do 4 (try destruct p as [p|p|]); vm_compute; tauto.
Qed.

Lemma hexlify_length (bs : list byte) :
  String.length (hexlify bs) = 2 * length bs.
Proof. induction bs as [|b bs IH]; simpl; [done|]. rewrite IH. lia. Qed.

Lemma hexlify_digits (bs : list byte) :
  Forall (λ c, c ∈ hex_digits) (list_ascii_of_string (hexlify bs)).
Proof.
  induction bs as [|b bs IH]; simpl; [constructor|].
  constructor; [apply hex_digit_elem_of|].
  constructor; [apply hex_digit_elem_of|done].
Qed.

(** X9. When a record has a payload preview, the frame has a raw layer and
    the preview is the lower-case hexadecimal text of the first 100 bytes of
    its load: two digits per byte, at most 200 characters. *)
Theorem analyze_packet_payload (now : string) (packet : Packet) (v : PyVal) :
  dict_get (NetworkSniffer.analyze_packet now packet) "payload" = Some v →
  v ≠ VNone →
  ∃ load,
    get_Raw (pkt_layers packet) = Some load
    ∧ v = VStr (hexlify (take 100 load))
    ∧ String.length (hexlify (take 100 load)) = 2 * (100 `min` length load)
    ∧ String.length (hexlify (take 100 load)) ≤ 200
    ∧ Forall (λ c, c ∈ hex_digits)
             (list_ascii_of_string (hexlify (take 100 load))).
Proof.
  intros Hv Hne.
  assert (Hload : ∃ load, get_Raw (pkt_layers packet) = Some load
                          ∧ v = VStr (hexlify (take 100 load))).
  { revert Hv. analyze_cases packet; vm_compute; intros [= <-]; by eauto. }
  destruct Hload as (load & Hraw & ->). exists load.
  rewrite hexlify_length, length_take.
  split_and!; [done|done|done|lia|apply hexlify_digits].
Qed.

Lemma analyze_packet_payload_witness :
  ∃ load, get_Raw (pkt_layers tcp_frame) = Some load
          ∧ String.length (hexlify (take 100 load)) = 2 * (100 `min` length load).
Proof.
  assert (Hv : dict_get (NetworkSniffer.analyze_packet "t" tcp_frame) "payload"
               = Some (VStr (hexlify (take 100 (replicate 120 x41)))))
    by (by vm_compute).
  assert (Hne : VStr (hexlify (take 100 (replicate 120 x41))) ≠ VNone)
    by discriminate.
  destruct (analyze_packet_payload "t" tcp_frame _ Hv Hne)
    as (load & H1 & _ & H2 & _).
  exact (ex_intro _ load (conj H1 H2)).
Defined.

(** X10. Link-layer addresses are stored under [src_mac] and [dst_mac] only.
    An Ethernet layer always decides them, also over the hardware addresses
    of an ARP layer; without an Ethernet layer they are the ARP hardware
    addresses of a frame classified as ARP, and absent otherwise. A frame
    with neither an IP nor an ARP layer keeps "Unknown" as its source and
    destination address, whatever its Ethernet addresses. *)
Theorem analyze_packet_link_layer (now : string) (packet : Packet) :
  let r := NetworkSniffer.analyze_packet now packet in
  let layers := pkt_layers packet in
  (∀ s d, get_Ether layers = Some (s, d) →
     dict_get r "src_mac" = Some (VStr s) ∧ dict_get r "dst_mac" = Some (VStr d))
  ∧ (∀ ps pd hs hd,
       get_Ether layers = None → get_IP layers = None →
       get_ARP layers = Some (ps, pd, hs, hd) →
       dict_get r "src_mac" = Some (VStr hs) ∧ dict_get r "dst_mac" = Some (VStr hd))
  ∧ (get_Ether layers = None → get_IP layers ≠ None ∨ get_ARP layers = None →
       dict_get r "src_mac" = None ∧ dict_get r "dst_mac" = None)
  ∧ (get_IP layers = None → get_ARP layers = None →
       src_ip_of r = VStr "Unknown"
       ∧ dict_get_default r "dst_ip" VNone = VStr "Unknown").
Proof.
  analyze_cases packet; split_and!; intros; simplify_eq; try done;
    try (by vm_compute); intuition congruence.
Qed.

Lemma analyze_packet_link_layer_witness :
  dict_get (NetworkSniffer.analyze_packet "t" arp_frame) "src_mac"
  = Some (VStr "00:1a:2b:3c:4d:5e").
Proof.
  exact (proj1 (proj1 (analyze_packet_link_layer "t" arp_frame) _ _ eq_refl)).
Defined.

(** ** The demo sniffer *)

(** X11. A record generated by the demo sniffer has exactly the ten base
    keys, in the order in which [analyze_packet] puts them. Its protocol is
    one of the six demo names; it has ports exactly when that is TCP or UDP
    (so none for HTTP, HTTPS and DNS), flags exactly when it is TCP, and never
    a payload. *)
Theorem generate_demo_packet_shape (now : string) (draws : DemoNetworkSniffer.Draws) :
  let r := DemoNetworkSniffer.generate_demo_packet now draws in
  let transport := protocol_of r = VStr "TCP" ∨ protocol_of r = VStr "UDP" in
  r.*1 = base_keys
  ∧ (∀ now' packet, take 10 (NetworkSniffer.analyze_packet now' packet).*1 = r.*1)
  ∧ protocol_of r ∈ demo_protocols
  ∧ (src_port_of r ≠ VNone ↔ transport)
  ∧ (dict_get_default r "dst_port" VNone ≠ VNone ↔ transport)
  ∧ (dict_get_default r "flags" VNone ≠ VNone ↔ protocol_of r = VStr "TCP")
  ∧ dict_get r "payload" = Some VNone.
Proof.
  assert (Hkeys : (DemoNetworkSniffer.generate_demo_packet now draws).*1 = base_keys)
    by done.
  split_and!; [done| | |..].
  - intros now' packet. rewrite Hkeys. apply analyze_packet_base_keys.
  - apply list_elem_of_In. unfold DemoNetworkSniffer.generate_demo_packet.
    destruct (DemoNetworkSniffer.draw_protocol draws); vm_compute; tauto.
  - unfold DemoNetworkSniffer.generate_demo_packet.
    destruct (DemoNetworkSniffer.draw_protocol draws); vm_compute; intuition congruence.
  - unfold DemoNetworkSniffer.generate_demo_packet.
    destruct (DemoNetworkSniffer.draw_protocol draws); vm_compute; intuition congruence.
  - unfold DemoNetworkSniffer.generate_demo_packet.
    destruct (DemoNetworkSniffer.draw_protocol draws); vm_compute; intuition congruence.
  - done.
Qed.

Lemma json_of_list_serializable (l : list PacketInfo) :
  Forall (λ d, ∃ o, json_of_dict d = inr o) l → ∃ doc, json_of_list l = inr doc.
Proof.
  induction 1 as [|d l [o Ho] _ [doc Hdoc]]; simpl; [eauto|].
  rewrite Ho, Hdoc. eauto.
Qed.

(** Every record in the history of a demo sniffer can be encoded. *)
Lemma demo_run_serializable (ops : list DemoOp) :
  Forall (λ d, ∃ o, json_of_dict d = inr o)
         (packets (demo_run ops DemoNetworkSniffer.__init__)).
Proof.
  unfold demo_run. induction ops as [|op ops IH] using rev_ind; [constructor|].
  rewrite foldl_snoc. set (self := foldl demo_step DemoNetworkSniffer.__init__ ops) in *.
  destruct op as [now draws|iface filter_str| |]; simpl.
  - unfold DemoNetworkSniffer.packet_callback.
    destruct (is_capturing self); simpl; [|done].
    assert (Hall : Forall (λ d, ∃ o, json_of_dict d = inr o)
              (packets self ++ [DemoNetworkSniffer.generate_demo_packet now draws])).
    { apply Forall_app. split; [done|].
      constructor; [apply generate_demo_packet_serializable|constructor]. }
    destruct (len _ >? 1000)%Z; simpl; [|done].
    unfold pop0. by apply Forall_drop.
  - unfold DemoNetworkSniffer.start_capture. by destruct (is_capturing self).
  - done.
  - constructor.
Qed.

(** X12. For a demo sniffer in any state it can reach, [export_packets] to a
    file that can be opened and written returns [True], prints nothing,
    leaves the sniffer as it was and writes a document with one object per
    record of the history, in order, each with the keys of its record. *)
Theorem demo_export_succeeds (ops : list DemoOp) (filename : string) (w : World) :
  filename ∉ unopenable w →
  filename ∉ unwritable w →
  let self := demo_run ops DemoNetworkSniffer.__init__ in
  ∃ doc,
    DemoNetworkSniffer.export_packets filename self w
    = (inr (true, self),
       mkWorld (<[filename := Complete doc]> (files w)) (unopenable w)
               (unwritable w) (stdout w))
    ∧ Forall2 (λ d o, o.*1 = d.*1) (packets self) doc.
Proof.
  intros Hopen Hwrite self.
  destruct (json_of_list_serializable _ (demo_run_serializable ops)) as [doc Hdoc].
  exists doc. split.
  - by apply export_packets_written.
  - eapply Forall2_impl; [by apply json_of_list_complete|].
    intros d o. apply json_of_dict_keys.
Qed.

Lemma demo_export_succeeds_witness :
  ∃ doc : list JsonObject,
    (DemoNetworkSniffer.export_packets "demo.json" one_demo_record empty_world).1
    = inr (true, one_demo_record)
    ∧ length doc = 1.
Proof.
  assert (Hopen : "demo.json" ∉ unopenable empty_world) by set_solver.
  assert (Hwrite : "demo.json" ∉ unwritable empty_world) by set_solver.
  destruct (demo_export_succeeds
              [DemoStart None "";
               DemoCallback "2024-05-01T10:00:00"
                 (DemoNetworkSniffer.mkDraws DemoNetworkSniffer.dTCP 10 5 51000 80 120
                                             DemoNetworkSniffer.fSYN)]
              "demo.json" empty_world Hopen Hwrite) as (doc & Hexp & Hdoc).
  exists doc. split.
  - change one_demo_record with
      (demo_run [DemoStart None "";
                 DemoCallback "2024-05-01T10:00:00"
                   (DemoNetworkSniffer.mkDraws DemoNetworkSniffer.dTCP 10 5 51000 80 120
                                               DemoNetworkSniffer.fSYN)]
                DemoNetworkSniffer.__init__).
    by rewrite Hexp.
  - apply Forall2_length in Hdoc. by rewrite <- Hdoc.
Defined.

Lemma demo_packet_callback_capturing now draws self :
  is_capturing self = true →
  let r := DemoNetworkSniffer.generate_demo_packet now draws in
  let self' := DemoNetworkSniffer.packet_callback now draws self in
  packets self' =
    (if decide (1000 < length (packets self ++ [r]))
     then drop 1 (packets self ++ [r]) else packets self ++ [r])
  ∧ packet_queue self' = packet_queue self ++ [r]
  ∧ packet_count self' = (packet_count self + 1)%Z
  ∧ is_capturing self' = true.
Proof.
  intros Hcap. unfold DemoNetworkSniffer.packet_callback. rewrite Hcap. simpl.
  change 1000%Z with (Z.of_nat 1000). rewrite len_gtb.
  unfold pop0. case_bool_decide; case_decide; try lia; simpl; auto.
Qed.

(** X13. The loop of the demo thread, started on a capturing demo sniffer
    whose history holds at most 1000 records, generates one record per
    iteration: afterwards the history is the last 1000 of the records it
    held followed by the generated ones, the queue has received every
    generated record and the packet count has grown by their number. On a
    sniffer that is not capturing the loop does nothing. *)
Theorem demo_capture_loop (draws : list (string * DemoNetworkSniffer.Draws))
    (self : Sniffer) :
  (is_capturing self = true → length (packets self) ≤ 1000 →
     let self' := DemoNetworkSniffer.capture_packets draws self in
     packets self' = last_n 1000 (packets self ++ demo_records draws)
     ∧ length (packets self') ≤ 1000
     ∧ packet_queue self' = packet_queue self ++ demo_records draws
     ∧ packet_count self' = (packet_count self + len draws)%Z
     ∧ is_capturing self' = true)
  ∧ (is_capturing self = false →
     DemoNetworkSniffer.capture_packets draws self = self).
Proof.
  split; [|intros Hf; destruct draws as [|[??]?]; simpl; [done|by rewrite Hf]].
  intros Hcap Hlen.
  enough (Hgen : ∀ all,
            packets self = last_n 1000 all →
            let self' := DemoNetworkSniffer.capture_packets draws self in
            packets self' = last_n 1000 (all ++ demo_records draws)
            ∧ packet_queue self' = packet_queue self ++ demo_records draws
            ∧ packet_count self' = (packet_count self + len draws)%Z
            ∧ is_capturing self' = true).
  { destruct (Hgen (packets self)) as (Hp & Hq & Hc & Hcap');
      [by rewrite last_n_short|].
    simpl. split_and!; try done. rewrite Hp, last_n_length. lia. }
  clear Hlen. revert self Hcap.
  induction draws as [|[now r] draws IH]; intros self Hcap all Hwin.
  - simpl. unfold len. simpl. rewrite !app_nil_r.
    split_and!; [done|done|lia|done].
  - simpl. rewrite Hcap.
    destruct (demo_packet_callback_capturing now r self Hcap)
      as (Hp & Hq & Hc & Hcap').
    destruct (IH _ Hcap' (all ++ [DemoNetworkSniffer.generate_demo_packet now r]))
      as (Hp' & Hq' & Hc' & Hcap'').
    { rewrite Hp, Hwin. symmetry. apply last_n_snoc. lia. }
    unfold demo_records in *. simpl.
    rewrite Hp', Hq', Hc', Hq, Hc, <- !app_assoc. unfold len. simpl.
    split_and!; [done|done|lia|done].
Qed.

Lemma demo_capture_loop_witness :
  packet_count
    (DemoNetworkSniffer.capture_packets
       [("t1", DemoNetworkSniffer.mkDraws DemoNetworkSniffer.dDNS 7 9 2000 53 80
                                          DemoNetworkSniffer.fACK)]
       one_demo_record) = 2%Z.
Proof.
  assert (Hlen : length (packets one_demo_record) ≤ 1000) by (vm_compute; lia).
  destruct (proj1 (demo_capture_loop
      [("t1", DemoNetworkSniffer.mkDraws DemoNetworkSniffer.dDNS 7 9 2000 53 80
                                         DemoNetworkSniffer.fACK)]
      one_demo_record) eq_refl Hlen) as (_ & _ & _ & Hc & _).
  rewrite Hc. reflexivity.
Defined.

(** ** Reading the history *)

(** X14. For a positive count, [get_recent_packets] returns the last
    [min(count, size)] records of the history in their order, in the real
    sniffer and in the demo sniffer alike; in particular the whole history
    when [count] is at least its size. *)
Theorem get_recent_packets_positive (count : Z) (self : Sniffer) :
  (0 < count)%Z →
  let r := NetworkSniffer.get_recent_packets count self in
  r = last_n (Z.to_nat count) (packets self)
  ∧ r `suffix_of` packets self
  ∧ length r = Z.to_nat count `min` length (packets self)
  ∧ (len (packets self) ≤ count → r = packets self)%Z
  ∧ DemoNetworkSniffer.get_recent_packets count self = r.
Proof.
  intros Hc r. unfold r. rewrite get_recent_packets_pos by done.
  split_and!; [done|apply suffix_drop| | |].
  - rewrite last_n_length. lia.
  - intros Hle. apply last_n_short. unfold len in Hle. lia.
  - change DemoNetworkSniffer.get_recent_packets
      with NetworkSniffer.get_recent_packets.
    by apply get_recent_packets_pos.
Qed.

Lemma get_recent_packets_positive_witness :
  length (NetworkSniffer.get_recent_packets 3 mixed_history) = 3.
Proof.
  destruct (get_recent_packets_positive 3 mixed_history) as (_ & _ & H & _); [lia|].
  rewrite H. reflexivity.
Defined.

(** X15. Stopping and starting again does not clear anything: the history
    and the queue are kept, only the packet count restarts at 0. After the
    restart and further frames the history is the last 1000 of the old and
    the new records, while the packet count is the number of new frames
    only. *)
Theorem restart_keeps_history (iface : option string) (filter_str : string)
    (frames : list (string * Packet)) (self : Sniffer) :
  length (packets self) ≤ 1000 →
  let stopped := (NetworkSniffer.stop_capture self).2 in
  let started := NetworkSniffer.start_capture iface filter_str stopped in
  let self' := callbacks frames started.2 in
  started.1 = true
  ∧ packets started.2 = packets self
  ∧ packet_queue started.2 = packet_queue self
  ∧ packet_count started.2 = 0%Z
  ∧ packets self' = last_n 1000 (packets self ++ records frames)
  ∧ packet_queue self' = packet_queue self ++ records frames
  ∧ packet_count self' = len frames.
Proof.
  intros Hlen stopped started self'.
  assert (Hcap : is_capturing started.2 = true) by done.
  destruct (callbacks_window frames started.2 (packets self) Hcap) as [Hwin _].
  { simpl. by rewrite last_n_short. }
  destruct (callbacks_queue_and_count_aux frames started.2 Hcap) as [Hq _].
  split_and!; try done.
  unfold self'. clear Hwin Hq.
  induction frames as [|[now packet] frames IH] using rev_ind; [done|].
  rewrite callbacks_snoc.
  assert (Hcap' : is_capturing (callbacks frames started.2) = true)
    by (by destruct (callbacks_queue_and_count_aux frames started.2 Hcap)).
  destruct (packet_callback_capturing now packet _ Hcap') as (_ & _ & -> & _).
  rewrite IH. unfold len. rewrite length_app. simpl. lia.
Qed.

Lemma restart_keeps_history_witness :
  packets (NetworkSniffer.start_capture None ""
             (NetworkSniffer.stop_capture mixed_history).2).2
  = packets mixed_history.
Proof.
  assert (Hlen : length (packets mixed_history) ≤ 1000) by (vm_compute; lia).
  exact (proj1 (proj2 (restart_keeps_history None "" [] mixed_history Hlen))).
Defined.

(** ** The statistics table of the command-line view *)

Lemma count_keys_length_remove_dups {K} `{EqDecision K} (obs : list K) :
  length (count_keys obs) = length (remove_dups obs).
Proof.
  rewrite <- (length_fmap fst (count_keys obs)).
  apply Permutation_length, NoDup_Permutation.
  - apply count_keys_NoDup.
  - apply NoDup_remove_dups.
  - intros k. by rewrite count_keys_elem_of, elem_of_remove_dups.
Qed.

Lemma top10_length {K} `{EqDecision K} (obs : list K) :
  len (top10 (count_keys obs)) = Z.min 10 (len (remove_dups obs)).
Proof.
  unfold len. rewrite top10_take, length_take.
  rewrite (Permutation_length (sorted_by_count_perm _)).
  rewrite count_keys_length_remove_dups. lia.
Qed.

(** X16. Whatever the state of the sniffer, the table that the command-line
    view builds from its statistics is built without error and shows the
    number of stored records as "Total Packets", also for the empty history
    whose statistics are the empty dictionary; "Protocols Detected" is the
    number of distinct protocol values, while "Unique IPs" and "Active
    Ports" are the numbers of distinct counted addresses and ports capped at
    10. *)
Theorem create_stats_table_of_stats (repr_dict : list (PyVal * Z) → string)
    (self : Sniffer) :
  ∃ table,
    create_stats_table repr_dict (NetworkSniffer.get_packet_stats self) = inr table
    ∧ tbl_columns table = [mkColumn "Metric" "cyan"; mkColumn "Value" "green"]
    ∧ tbl_rows table =
        [ ["Total Packets"; pretty (len (packets self))];
          ["Protocols Detected";
           pretty (len (remove_dups (protocol_of <$> packets self)))];
          ["Unique IPs";
           pretty (Z.min 10 (len (remove_dups (observed_ips (packets self)))))];
          ["Active Ports";
           pretty (Z.min 10 (len (remove_dups (observed_ports (packets self)))))] ].
Proof.
  destruct (packets self) as [|p history] eqn:E.
  - unfold NetworkSniffer.get_packet_stats. rewrite E.
    eexists. split_and!; reflexivity.
  - rewrite get_packet_stats_nonempty by (by rewrite E).
    rewrite <- E. eexists. split; [reflexivity|]. split; [reflexivity|].
    unfold dict_get_default. simpl.
    rewrite !top10_length. unfold len at 2.
    by rewrite count_keys_length_remove_dups.
Qed.

(** ** Configuration *)

(** X17. [validate_config] reports no error exactly when both ports lie
    between 1 and 65535 and differ and the two limits are at least 1; it
    reports at most one error per rule, so at most five. The settings the
    module starts with are valid. *)
Theorem validate_config_spec (c : Config) :
  (validate_config c = [] ↔
     (1 ≤ WEB_PORT c ≤ 65535)%Z ∧ (1 ≤ DEMO_PORT c ≤ 65535)%Z
     ∧ WEB_PORT c ≠ DEMO_PORT c
     ∧ (1 ≤ MAX_PACKETS_IN_MEMORY c)%Z ∧ (1 ≤ PACKET_CAPTURE_TIMEOUT c)%Z)
  ∧ length (validate_config c) ≤ 5
  ∧ validate_config default_config = [].
Proof.
  unfold validate_config.
  destruct (Z.ltb_spec (WEB_PORT c) 1), (Z.ltb_spec 65535 (WEB_PORT c)),
    (Z.ltb_spec (DEMO_PORT c) 1), (Z.ltb_spec 65535 (DEMO_PORT c)),
    (Z.eqb_spec (WEB_PORT c) (DEMO_PORT c)),
    (Z.ltb_spec (MAX_PACKETS_IN_MEMORY c) 1),
    (Z.ltb_spec (PACKET_CAPTURE_TIMEOUT c) 1);
    rewrite ?Z.gtb_ltb;
    repeat match goal with
           | |- context [(?a <? ?b)%Z] => destruct (Z.ltb_spec a b); try lia
           end;
    simpl; (split_and!; [split; [intros; (discriminate || (split_and!; lia)) | intros; (lia || done)] | lia | done]).
Qed.

(** ** Interface information *)

(** X18. [get_interface_info] always returns a dictionary whose [name] is the
    interface asked for and whose [netmask] equals its [ip] (the netmask is
    read with the address lookup). When both lookups succeed it holds their
    results and no [error]; when either fails, [mac], [ip] and [netmask] are
    all "N/A", also a MAC address that had been found, and [error] is the
    message of the failure. The row of the command-line table then reads
    "No IP", and "Available" otherwise unless the address itself is "N/A". *)
Theorem get_interface_info_spec
    (get_if_hwaddr get_if_addr : string → Exception + string) (interface : string) :
  let info := get_interface_info get_if_hwaddr get_if_addr interface in
  let row := interface_row get_if_hwaddr get_if_addr interface in
  dict_get info "name" = Some interface
  ∧ dict_get info "netmask" = dict_get info "ip"
  ∧ (∀ mac ip, get_if_hwaddr interface = inr mac → get_if_addr interface = inr ip →
       info = [("name", interface); ("mac", mac); ("ip", ip); ("netmask", ip)]
       ∧ row = [interface; ip; mac;
                if decide (ip ≠ "N/A") then "Available" else "No IP"])
  ∧ (∀ e, get_if_hwaddr interface = inl e
          ∨ (∃ mac, get_if_hwaddr interface = inr mac) ∧ get_if_addr interface = inl e →
       info = [("name", interface); ("mac", "N/A"); ("ip", "N/A");
               ("netmask", "N/A"); ("error", exc_msg e)]
       ∧ row = [interface; "N/A"; "N/A"; "No IP"]).
Proof.
  unfold interface_row, get_interface_info.
  destruct (get_if_hwaddr interface) as [e1|mac1] eqn:Hhw;
    destruct (get_if_addr interface) as [e2|ip1] eqn:Hip; simpl.
  all: split_and!; [done|done| |].
  all: try (intros mac ip [= <-] [= <-]; done).
  all: try (intros mac ip; congruence).
  all: intros e [He|[[mac Hm] He]]; simplify_eq; done.
Qed.

Lemma get_interface_info_spec_witness :
  interface_row (λ _, inr "00:1a:2b:3c:4d:5e")
                (λ _, inl (mkException "OSError" "no address")) "eth0"
  = ["eth0"; "N/A"; "N/A"; "No IP"].
Proof.
  exact (proj2 (proj2 (proj2 (proj2
    (get_interface_info_spec (λ _, inr "00:1a:2b:3c:4d:5e")
       (λ _, inl (mkException "OSError" "no address")) "eth0")))
    (mkException "OSError" "no address")
    (or_intror (conj (ex_intro _ "00:1a:2b:3c:4d:5e" eq_refl) eq_refl)))).
Defined.

(** ** The live view *)

Lemma sent_packets_new (l : list PacketInfo) : sent_packets (NewPacket <$> l) = l.
Proof. induction l as [|p l IH]; [done|]. simpl. f_equal. exact IH. Qed.

Lemma sent_packets_app (l k : list Emitted) :
  sent_packets (l ++ k) = sent_packets l ++ sent_packets k.
Proof. unfold sent_packets. apply omap_app. Qed.

(** What the draining loop does: it emits a prefix of the queue, and stops
    early only at a packet whose emission fails, which is then neither sent
    nor left in the queue. *)
Lemma drain_queue_spec emit_error (queue : list PacketInfo) : ∀ sent,
  ∃ emitted,
    (drain_queue emit_error queue sent).1.1 = sent ++ (NewPacket <$> emitted)
    ∧ match (drain_queue emit_error queue sent).2 with
      | None =>
          emitted = queue ∧ (drain_queue emit_error queue sent).1.2 = []
      | Some e =>
          ∃ lost, queue = emitted ++ lost :: (drain_queue emit_error queue sent).1.2
                  ∧ emit_error (NewPacket lost) = Some e
      end.
Proof.
  induction queue as [|p queue IH]; intros sent; simpl.
  - exists []. simpl. by rewrite app_nil_r.
  - destruct (emit_error (NewPacket p)) as [e|] eqn:Hp; simpl.
    + exists []. simpl. rewrite app_nil_r. split; [done|]. by exists p.
    + specialize (IH (sent ++ [NewPacket p])).
      destruct (drain_queue emit_error queue (sent ++ [NewPacket p]))
        as [[sent' rest] failure].
      simpl in *. destruct IH as (emitted & -> & Hrest).
      exists (p :: emitted). rewrite <- app_assoc. split; [done|].
      destruct failure as [e|].
      * destruct Hrest as (lost & -> & Hlost). by exists lost.
      * by destruct Hrest as [-> ->].
Qed.

(** X19. One iteration of the background emitter never raises and never
    touches the history or the packet count. While the sniffer is not
    capturing it emits nothing and leaves the queue alone. While it is
    capturing and [socketio.emit] works, it emits every queued record once,
    in queue order, then the current statistics, and leaves the queue
    empty. In general the records it emits are a prefix of the queue, what
    remains queued is a suffix of it, and at most one record (the one whose
    emission failed) is neither emitted nor left in the queue. *)
Theorem emitter_iteration_spec (emit_error : Emitted → option Exception)
    (self : Sniffer) (w : World) :
  let r := emitter_iteration emit_error self w in
  (is_capturing self = false → r = (inr ([], self), w))
  ∧ (is_capturing self = true → (∀ ev, emit_error ev = None) →
       r = (inr ((NewPacket <$> packet_queue self)
                   ++ [StatsUpdate (DemoNetworkSniffer.get_packet_stats self)],
                 set_packet_queue [] self), w))
  ∧ ∃ sent self',
      r.1 = inr (sent, self')
      ∧ packets self' = packets self
      ∧ packet_count self' = packet_count self
      ∧ is_capturing self' = is_capturing self
      ∧ sent_packets sent `prefix_of` packet_queue self
      ∧ packet_queue self' `suffix_of` packet_queue self
      ∧ length (packet_queue self)
          ≤ length (sent_packets sent) + length (packet_queue self') + 1.
Proof.
  unfold emitter_iteration.
  destruct (drain_queue_spec emit_error (packet_queue self) [])
    as (emitted & Hsent & Hrest).
  destruct (drain_queue emit_error (packet_queue self) []) as [[sent queue] failure].
  simpl in Hsent, Hrest. subst sent.
  destruct (is_capturing self) eqn:Hcap; simpl.
  - split; [done|]. split.
    + intros _ Hok. destruct failure as [e|].
      * destruct Hrest as (lost & _ & Hlost). by rewrite Hok in Hlost.
      * destruct Hrest as [-> ->]. by rewrite Hok.
    + destruct failure as [e|].
      * destruct Hrest as (lost & Hq & _).
        eexists _, _. split; [reflexivity|]. simpl.
        rewrite sent_packets_new, Hq, length_app. simpl.
        split_and!; [done..| | |lia].
        -- by eexists.
        -- exists (emitted ++ [lost]). by rewrite <- app_assoc.
      * destruct Hrest as [-> ->].
        destruct (emit_error (StatsUpdate _)) as [e|]; simpl;
          (eexists _, _; split; [reflexivity|]); simpl;
          rewrite ?sent_packets_app, sent_packets_new, ?app_nil_r;
          (split_and!; [done..| | |lia]);
          [done|by exists (packet_queue self); rewrite app_nil_r
          |done|by exists (packet_queue self); rewrite app_nil_r].
  - split; [done|]. split; [done|].
    exists [], self. split_and!; [done..| | |lia].
    + apply prefix_nil.
    + done.
Qed.

Lemma emitter_iteration_spec_witness :
  (emitter_iteration (λ _, None) two_records empty_world).1
  = inr ((NewPacket <$> packet_queue two_records)
           ++ [StatsUpdate (DemoNetworkSniffer.get_packet_stats two_records)],
         set_packet_queue [] two_records).
Proof.
  rewrite (proj1 (proj2 (emitter_iteration_spec (λ _, None) two_records empty_world))
             eq_refl (λ _, eq_refl)).
  reflexivity.
Defined.
